(** * Transform layer of the mononoke ETL pipeline

    Shallow embedding of [src/src/mononoke/pipeline/transform.py]:
    the identity hash ([Transform.generate_hash_id], MD5 included), the
    numeric coercion [Transform._to_float], the CSV upsert
    [Transform._upsert_csv], the five per-domain transformers and the
    cleaning step of [Transform.transform_yahoo_financials].

    Python strings are lists of Unicode code points; JSON payloads are
    the values [json.load] produces; a pandas DataFrame is a list of
    column names plus a list of rows, each row an association list from
    column to cell. *)

From Stdlib Require Import ZArith NArith QArith String Ascii Bool Lia List.
Import ListNotations.
Set Warnings "-register-all".
Open Scope string_scope.
Open Scope list_scope.
Open Scope Z_scope.

(* ------------------------------------------------------------------ *)
(** ** Python strings *)

(** A Python [str]: a sequence of Unicode code points. *)
Record pystr := PyStr { cps : list N }.

Definition lit (s : string) : pystr :=
  PyStr (map (fun a => N_of_ascii a) (list_ascii_of_string s)).
Coercion lit : string >-> pystr.

Definition pycat (a b : pystr) : pystr := PyStr (cps a ++ cps b).

(** ["sep".join(xs)] on strings. *)
Fixpoint pyjoin (sep : pystr) (xs : list pystr) : pystr :=
  match xs with
  | [] => PyStr []
  | [x] => x
  | x :: rest => pycat x (pycat sep (pyjoin sep rest))
  end.

Definition pystr_eq_dec (a b : pystr) : {a = b} + {a <> b}.
Proof. decide equality. apply list_eq_dec. apply N.eq_dec. Defined.

Definition pystr_eqb (a b : pystr) : bool :=
  if pystr_eq_dec a b then true else false.

(** [str.encode("utf-8")]: strict error handler, so a lone surrogate
    (U+D800..U+DFFF) raises [UnicodeEncodeError] ([None] here). *)
Definition utf8_cp (c : N) : option (list Z) :=
  let z := Z.of_N c in
  if z <? 128 then Some [z]
  else if z <? 2048 then
    Some [192 + z / 64; 128 + z mod 64]
  else if (55296 <=? z) && (z <=? 57343) then None
  else if z <? 65536 then
    Some [224 + z / 4096; 128 + (z / 64) mod 64; 128 + z mod 64]
  else if z <? 1114112 then
    Some [240 + z / 262144; 128 + (z / 4096) mod 64;
          128 + (z / 64) mod 64; 128 + z mod 64]
  else None.

Fixpoint utf8_encode (l : list N) : option (list Z) :=
  match l with
  | [] => Some []
  | c :: rest =>
      match utf8_cp c, utf8_encode rest with
      | Some b, Some bs => Some (b ++ bs)
      | _, _ => None
      end
  end.

(* ------------------------------------------------------------------ *)
(** ** MD5 (RFC 1321), as [hashlib.md5(...).hexdigest()] computes it *)

Module MD5.

Definition mask32 : Z := Z.ones 32.
Definition w32 (x : Z) : Z := Z.land x mask32.
Definition rotl (x c : Z) : Z :=
  w32 (Z.lor (Z.shiftl x c) (Z.shiftr x (32 - c))).
Definition bnot (x : Z) : Z := Z.lxor x mask32.

Definition K : list Z :=
  [0xd76aa478; 0xe8c7b756; 0x242070db; 0xc1bdceee; 0xf57c0faf; 0x4787c62a;
   0xa8304613; 0xfd469501; 0x698098d8; 0x8b44f7af; 0xffff5bb1; 0x895cd7be;
   0x6b901122; 0xfd987193; 0xa679438e; 0x49b40821; 0xf61e2562; 0xc040b340;
   0x265e5a51; 0xe9b6c7aa; 0xd62f105d; 0x02441453; 0xd8a1e681; 0xe7d3fbc8;
   0x21e1cde6; 0xc33707d6; 0xf4d50d87; 0x455a14ed; 0xa9e3e905; 0xfcefa3f8;
   0x676f02d9; 0x8d2a4c8a; 0xfffa3942; 0x8771f681; 0x6d9d6122; 0xfde5380c;
   0xa4beea44; 0x4bdecfa9; 0xf6bb4b60; 0xbebfbc70; 0x289b7ec6; 0xeaa127fa;
   0xd4ef3085; 0x04881d05; 0xd9d4d039; 0xe6db99e5; 0x1fa27cf8; 0xc4ac5665;
   0xf4292244; 0x432aff97; 0xab9423a7; 0xfc93a039; 0x655b59c3; 0x8f0ccc92;
   0xffeff47d; 0x85845dd1; 0x6fa87e4f; 0xfe2ce6e0; 0xa3014314; 0x4e0811a1;
   0xf7537e82; 0xbd3af235; 0x2ad7d2bb; 0xeb86d391].

Definition R : list Z :=
  [7; 12; 17; 22; 7; 12; 17; 22; 7; 12; 17; 22; 7; 12; 17; 22;
   5; 9; 14; 20; 5; 9; 14; 20; 5; 9; 14; 20; 5; 9; 14; 20;
   4; 11; 16; 23; 4; 11; 16; 23; 4; 11; 16; 23; 4; 11; 16; 23;
   6; 10; 15; 21; 6; 10; 15; 21; 6; 10; 15; 21; 6; 10; 15; 21].

Definition state : Type := (Z * Z * Z * Z)%type.
Definition init : state := (0x67452301, 0xefcdab89, 0x98badcfe, 0x10325476).

(** Little-endian bytes of a number, [n] bytes. *)
Fixpoint le_bytes (n : nat) (x : Z) : list Z :=
  match n with
  | O => []
  | S n' => Z.land x 255 :: le_bytes n' (Z.shiftr x 8)
  end.

(** Padding: a 0x80 byte, zeros up to 56 mod 64, the bit length on 64 bits. *)
Definition pad (msg : list Z) : list Z :=
  let len := Z.of_nat (length msg) in
  msg ++ [128] ++ repeat 0 (Z.to_nat ((55 - len) mod 64))
      ++ le_bytes 8 (Z.land (8 * len) (Z.ones 64)).

Fixpoint words (fuel : nat) (b : list Z) : list Z :=
  match fuel, b with
  | S f, b0 :: b1 :: b2 :: b3 :: rest =>
      (b0 + Z.shiftl b1 8 + Z.shiftl b2 16 + Z.shiftl b3 24) :: words f rest
  | _, _ => []
  end.

Definition step (M : list Z) (st : state) (i : nat) : state :=
  let '(a, b, c, d) := st in
  let iz := Z.of_nat i in
  let '(f, g) :=
    if (i <? 16)%nat then (Z.lor (Z.land b c) (Z.land (bnot b) d), iz)
    else if (i <? 32)%nat then (Z.lor (Z.land d b) (Z.land (bnot d) c), (5 * iz + 1) mod 16)
    else if (i <? 48)%nat then (Z.lxor b (Z.lxor c d), (3 * iz + 5) mod 16)
    else (Z.lxor c (Z.lor b (bnot d)), (7 * iz) mod 16) in
  let f' := w32 (f + a + nth i K 0 + nth (Z.to_nat g) M 0) in
  (d, w32 (b + rotl f' (nth i R 0)), b, c).

Definition block (st : state) (blk : list Z) : state :=
  let M := words 16 blk in
  let '(a, b, c, d) := fold_left (step M) (seq 0 64) st in
  let '(a0, b0, c0, d0) := st in
  (w32 (a0 + a), w32 (b0 + b), w32 (c0 + c), w32 (d0 + d)).

Fixpoint blocks (fuel : nat) (st : state) (l : list Z) : state :=
  match fuel with
  | O => st
  | S f =>
      match l with
      | [] => st
      | _ => blocks f (block st (firstn 64 l)) (skipn 64 l)
      end
  end.

(** The 16 digest bytes. *)
Definition digest (msg : list Z) : list Z :=
  let p := pad msg in
  let '(a, b, c, d) := blocks (length p) init p in
  le_bytes 4 a ++ le_bytes 4 b ++ le_bytes 4 c ++ le_bytes 4 d.

Definition hex_char (n : Z) : N :=
  Z.to_N (if n <? 10 then 48 + n else 87 + n).

(** [hexdigest()]: two lowercase hex digits per byte. *)
Definition hexdigest (msg : list Z) : pystr :=
  PyStr (flat_map (fun byte => [hex_char (byte / 16); hex_char (byte mod 16)])
                  (digest msg)).

End MD5.

(* ------------------------------------------------------------------ *)
(** ** Exceptions, JSON values, the identity hash *)

(** The Python exceptions the transform layer can raise. *)
Inductive exn :=
| ValueError (msg : string)
| TypeError
| AttributeError
| KeyError
| UnicodeEncodeError
| EmptyDataError
| DateParseError.

Inductive result (A : Type) : Type :=
| Ok (a : A)
| Err (e : exn).
Arguments Ok {A} a.
Arguments Err {A} e.

(** What [json.load] returns: objects keep their key order. *)
Inductive json :=
| JNull
| JBool (b : bool)
| JNum (q : Q)
| JStr (s : pystr)
| JArr (l : list json)
| JObj (kv : list (pystr * json)).

Fixpoint assoc {A} (k : pystr) (l : list (pystr * A)) : option A :=
  match l with
  | [] => None
  | (k', v) :: rest => if pystr_eqb k k' then Some v else assoc k rest
  end.

(** [d.get(k, default)]; [.get] on a non-dict raises [AttributeError]. *)
Definition dict_get (d : json) (k : pystr) (default : json) : result json :=
  match d with
  | JObj kv => Ok (match assoc k kv with Some v => v | None => default end)
  | _ => Err AttributeError
  end.

(** The arguments of ["|".join(args)]: a non-[str] raises [TypeError]. *)
Fixpoint str_args (args : list json) : result (list pystr) :=
  match args with
  | [] => Ok []
  | JStr s :: rest =>
      match str_args rest with Ok ss => Ok (s :: ss) | Err e => Err e end
  | _ :: _ => Err TypeError
  end.

(** [f"{source}|{data_type}|" + "|".join(args)] *)
Definition hash_basis (source data_type : pystr) (args : list pystr) : pystr :=
  pycat source (pycat "|"%string (pycat data_type (pycat "|"%string (pyjoin "|"%string args)))).

(** [Transform.generate_hash_id] *)
Definition generate_hash_id (source data_type : pystr) (args : list json)
  : result pystr :=
  match str_args args with
  | Err e => Err e
  | Ok ss =>
      match utf8_encode (cps (hash_basis source data_type ss)) with
      | None => Err UnicodeEncodeError
      | Some bytes => Ok (MD5.hexdigest bytes)
      end
  end.

(* ------------------------------------------------------------------ *)
(** ** DataFrames *)

(** A DataFrame cell; [CNull] is NaN / None. *)
Inductive cell :=
| CNull
| CBool (b : bool)
| CNum (q : Q)
| CStr (s : pystr)
| CObj (j : json).

Definition cell_of_json (j : json) : cell :=
  match j with
  | JNull => CNull
  | JBool b => CBool b
  | JNum q => CNum q
  | JStr s => CStr s
  | _ => CObj j
  end.

Definition row : Type := list (pystr * cell).

Record table := Table { columns : list pystr; rows : list row }.

Definition get_cell (c : pystr) (r : row) : cell :=
  match assoc c r with Some x => x | None => CNull end.

(** [d[k] = v] on a dict: in place when present, appended otherwise. *)
Fixpoint dict_set {A} (k : pystr) (v : A) (d : list (pystr * A)) : list (pystr * A) :=
  match d with
  | [] => [(k, v)]
  | (k', v') :: rest =>
      if pystr_eqb k k' then (k', v) :: rest else (k', v') :: dict_set k v rest
  end.

Definition memb (c : pystr) (cs : list pystr) : bool := existsb (pystr_eqb c) cs.

Definition col_union (a b : list pystr) : list pystr :=
  a ++ filter (fun c => negb (memb c a)) b.

(** [pd.DataFrame(list_of_dicts)]: columns in order of first appearance. *)
Definition frame (rs : list row) : table :=
  Table (fold_left (fun acc r => col_union acc (map fst r)) rs []) rs.

(** [df.empty] *)
Definition frame_empty (t : table) : bool :=
  match columns t, rows t with
  | [], _ | _, [] => true
  | _, _ => false
  end.

(** [pd.concat([t1, t2], ignore_index=True)] *)
Definition concat (t1 t2 : table) : table :=
  Table (col_union (columns t1) (columns t2)) (rows t1 ++ rows t2).

(** A row as the CSV file stores it: one cell per column, in order. *)
Definition to_row (cols : list pystr) (r : row) : row :=
  map (fun c => (c, get_cell c r)) cols.

(** Hash keys of [drop_duplicates]: NaN equals NaN, [True] equals [1],
    numbers compare by value, dicts and lists are unhashable. *)
Inductive keycell := KNull | KNum (q : Q) | KStr (s : pystr) | KObj.

Definition kcell (c : cell) : keycell :=
  match c with
  | CNull => KNull
  | CBool b => KNum (if b then 1 else 0)%Q
  | CNum q => KNum (Qred q)
  | CStr s => KStr s
  | CObj _ => KObj
  end.

Definition keycell_eq_dec (a b : keycell) : {a = b} + {a <> b}.
Proof.
  decide equality.
  - destruct q, q0; decide equality; [apply Pos.eq_dec | apply Z.eq_dec].
  - apply pystr_eq_dec.
Defined.

Definition key_eqb (a b : list keycell) : bool :=
  if list_eq_dec keycell_eq_dec a b then true else false.

Definition row_key (subset : list pystr) (r : row) : list keycell :=
  map (fun c => kcell (get_cell c r)) subset.

(** [keep="last"]: a row survives when no later row has its key. *)
Fixpoint dedup_last (kf : row -> list keycell) (l : list row) : list row :=
  match l with
  | [] => []
  | r :: rest =>
      if existsb (fun r' => key_eqb (kf r) (kf r')) rest
      then dedup_last kf rest
      else r :: dedup_last kf rest
  end.

(** [df.drop_duplicates(subset=subset, keep="last")]; an empty frame (no
    column or no row) is returned as it is, before the subset is looked at. *)
Definition drop_duplicates (subset : list pystr) (t : table) : result table :=
  if frame_empty t then Ok t
  else if negb (forallb (fun c => memb c (columns t)) subset) then Err KeyError
  else if existsb (fun r => existsb (fun k => match k with KObj => true | _ => false end)
                                    (row_key subset r)) (rows t)
  then Err TypeError
  else Ok (Table (columns t) (dedup_last (row_key subset) (rows t))).

(** [df.dropna(subset=subset)]: drop a row with NaN in any listed column. *)
Definition dropna_subset (subset : list pystr) (t : table) : result table :=
  if negb (forallb (fun c => memb c (columns t)) subset) then Err KeyError
  else Ok (Table (columns t)
             (filter (fun r => forallb (fun c => match get_cell c r with
                                                 | CNull => false | _ => true end) subset)
                     (rows t))).

(* ------------------------------------------------------------------ *)
(** ** CSV files *)

(** A file holds the header and, for each row, one cell per column: the
    values [df.to_csv] printed. The text of a cell is what [read_csv]
    sees of it. *)
Definition to_csv (t : table) : table :=
  Table (columns t) (map (to_row (columns t)) (rows t)).

Definition hex_digit (n : Z) : N := Z.to_N (if n <? 10 then 48 + n else 87 + n).

Fixpoint z_digits (fuel : nat) (n : Z) (acc : list N) : list N :=
  match fuel with
  | O => acc
  | S f => let acc' := Z.to_N (48 + n mod 10) :: acc in
           if n <? 10 then acc' else z_digits f (n / 10) acc'
  end.

(** Decimal digits of a natural number. *)
Definition nat_text (n : Z) : list N := z_digits (S (Z.to_nat (Z.log2 n))) n [].

Fixpoint frac_digits (fuel : nat) (r d : Z) : list N :=
  match fuel with
  | O => []
  | S f => if r =? 0 then []
           else Z.to_N (48 + (10 * r) / d) :: frac_digits f ((10 * r) mod d) d
  end.

(** A number as [to_csv] prints it: an integral value as an integer
    column prints it, any other value as its decimal expansion (exact
    for the decimal fractions that floats parsed from text are, cut
    after 17 digits otherwise). Python's exponent forms ([1e+16],
    [1e-05]) and the [.0] of an integral float are not reproduced. *)
Definition num_text (q : Q) : pystr :=
  let q' := Qred q in
  let n := Qnum q' in
  let d := Zpos (Qden q') in
  let sign := if n <? 0 then [45%N] else [] in
  let a := Z.abs n in
  if d =? 1 then PyStr (sign ++ nat_text a)
  else PyStr (sign ++ nat_text (a / d) ++ [46%N] ++ frac_digits 17 (a mod d) d).

(** Python's [repr] of a string: single quotes unless the string has a
    single quote and no double quote; backslash, the quote, control
    characters, the C1 range, no-break space, soft hyphen and lone
    surrogates escaped. (Python escapes the other non-printable
    characters of the Unicode database as well.) *)
Definition repr_char (quote : N) (c : N) : list N :=
  let hex2 := [hex_digit (Z.of_N c / 16); hex_digit (Z.of_N c mod 16)] in
  if (c =? 92)%N then [92; 92]%N
  else if (c =? quote)%N then [92%N; quote]
  else if (c =? 10)%N then [92; 110]%N
  else if (c =? 13)%N then [92; 114]%N
  else if (c =? 9)%N then [92; 116]%N
  else if (c <? 32)%N || (c =? 127)%N || ((128 <=? c)%N && (c <=? 160)%N) || (c =? 173)%N
  then [92; 120]%N ++ hex2
  else if (55296 <=? c)%N && (c <=? 57343)%N
  then [92; 117]%N ++ map (fun k => hex_digit ((Z.of_N c / 16 ^ k) mod 16)) [3; 2; 1; 0]
  else [c].

Definition py_repr_str (s : pystr) : pystr :=
  let quote := if existsb (N.eqb 39) (cps s) && negb (existsb (N.eqb 34) (cps s))
               then 34%N else 39%N in
  PyStr (quote :: flat_map (repr_char quote) (cps s) ++ [quote]).

Definition sep_join (sep : list N) (xs : list (list N)) : list N :=
  match xs with
  | [] => []
  | x :: rest => x ++ flat_map (fun y => sep ++ y) rest
  end.

(** [str()] of a value held in a cell: Python's [repr] of dicts and lists. *)
Fixpoint py_repr (j : json) : pystr :=
  match j with
  | JNull => "None"
  | JBool b => if b then "True" else "False"
  | JNum q => num_text q
  | JStr s => py_repr_str s
  | JArr l => PyStr ([91%N] ++ sep_join [44; 32]%N (map (fun x => cps (py_repr x)) l) ++ [93%N])
  | JObj kv => PyStr ([123%N] ++ sep_join [44; 32]%N
                        (map (fun p => cps (py_repr_str (fst p)) ++ [58; 32]%N ++ cps (py_repr (snd p))) kv)
                      ++ [125%N])
  end.

(** The field [to_csv] writes for a cell: NaN as an empty field. *)
Definition cell_text (c : cell) : pystr :=
  match c with
  | CNull => PyStr []
  | CBool b => if b then "True" else "False"
  | CNum q => num_text q
  | CStr s => s
  | CObj j => py_repr j
  end.

(** pandas' default missing-value markers ([STR_NA_VALUES]). *)
Definition na_texts : list pystr :=
  map lit [""; "#N/A"; "#N/A N/A"; "#NA"; "-1.#IND"; "-1.#QNAN"; "-NaN"; "-nan";
           "1.#IND"; "1.#QNAN"; "<NA>"; "N/A"; "NA"; "NULL"; "NaN"; "None";
           "n/a"; "nan"; "null"].

Definition true_texts : list pystr := map lit ["True"; "TRUE"; "true"].
Definition false_texts : list pystr := map lit ["False"; "FALSE"; "false"].

Definition is_na_text (s : pystr) : bool := memb s na_texts.

Definition ascii_space_cp (c : N) : bool := (c =? 32)%N || ((9 <=? c)%N && (c <=? 13)%N).
Definition ascii_digit_cp (c : N) : bool := (48 <=? c)%N && (c <=? 57)%N.

Fixpoint drop_spaces (l : list N) : list N :=
  match l with
  | c :: rest => if ascii_space_cp c then drop_spaces rest else l
  | [] => []
  end.

Fixpoint span_digits (l : list N) : list N * list N :=
  match l with
  | c :: rest => if ascii_digit_cp c then let '(a, b) := span_digits rest in (c :: a, b) else ([], l)
  | [] => ([], [])
  end.

Definition digits_Z (l : list N) : Z := fold_left (fun acc c => 10 * acc + (Z.of_N c - 48)) l 0.

Definition split_sign (l : list N) : Z * list N :=
  match l with
  | 45%N :: rest => (-1, rest)
  | 43%N :: rest => (1, rest)
  | _ => (1, l)
  end.

(** The fields pandas' C parser reads as numbers ([xstrtod]): optional
    ASCII spaces, a sign, digits with an optional decimal point (at
    least one digit), an optional exponent [e]/[E] with a sign and
    digits, optional spaces. The infinities it also accepts ([inf],
    [-Infinity], ...) have no counterpart among the rational cells of
    this model and are read as text here. *)
Definition csv_number (s : pystr) : option Q :=
  let l := rev (drop_spaces (rev (drop_spaces (cps s)))) in
  let '(sg, l1) := split_sign l in
  let '(d1, l2) := span_digits l1 in
  let '(d2, l3) := match l2 with 46%N :: rest => span_digits rest | _ => ([], l2) end in
  let mant := (inject_Z sg * (inject_Z (digits_Z (d1 ++ d2)) / inject_Z (10 ^ Z.of_nat (List.length d2))))%Q in
  match d1, d2 with
  | [], [] => None
  | _, _ =>
      match l3 with
      | [] => Some mant
      | e :: rest =>
          if (e =? 101)%N || (e =? 69)%N then
            let '(es, r1) := split_sign rest in
            let '(ed, r2) := span_digits r1 in
            match ed, r2 with
            | _ :: _, [] =>
                let x := es * digits_Z ed in
                Some (if 0 <=? x then mant * inject_Z (10 ^ x) else mant / inject_Z (10 ^ (- x)))%Q
            | _, _ => None
            end
          else None
      end
  end.

Definition is_number_text (s : pystr) : bool :=
  match csv_number s with Some _ => true | None => false end.

(** The values [read_csv] gives one column from its fields: numbers when
    every non-missing field is one, else booleans when every non-missing
    field is [True]/[False] in one of the spellings pandas accepts, else
    strings; the missing-value markers become NaN in each case. *)
Definition read_col (ts : list pystr) : list cell :=
  if forallb (fun s => is_na_text s || is_number_text s) ts then
    map (fun s => if is_na_text s then CNull
                  else match csv_number s with Some q => CNum q | None => CNull end) ts
  else if forallb (fun s => is_na_text s || memb s true_texts || memb s false_texts) ts then
    map (fun s => if is_na_text s then CNull else CBool (memb s true_texts)) ts
  else map (fun s => if is_na_text s then CNull else CStr s) ts.

(** [pd.read_csv(path)]: a file without a header raises [EmptyDataError];
    otherwise each column's type is inferred from its fields, so a
    string such as ["1"] written earlier comes back as the number [1]
    and [""] as NaN. Header names are taken as they are. *)
Definition read_csv (f : table) : result table :=
  match columns f with
  | [] => Err EmptyDataError
  | cols =>
      let vals := map (fun c => (c, read_col (map (fun r => cell_text (get_cell c r)) (rows f)))) cols in
      Ok (Table cols (map (fun i => map (fun cv => (fst cv, nth i (snd cv) CNull)) vals)
                          (seq 0 (List.length (rows f)))))
  end.

(* ------------------------------------------------------------------ *)
(** ** The world: CSV files and the warning log *)

Inductive log_entry :=
| LogFloat (v : json)      (* "Could not convert value to float: {value}" *)
| LogWarn (msg : string).

Record world := World { files : list (string * table); log : list log_entry }.

Definition M (A : Type) : Type := world -> result A * world.

Definition ret {A} (a : A) : M A := fun w => (Ok a, w).
Definition bind {A B} (m : M A) (k : A -> M B) : M B :=
  fun w => match m w with
           | (Ok a, w') => k a w'
           | (Err e, w') => (Err e, w')
           end.
Definition lift {A} (r : result A) : M A := fun w => (r, w).
Definition raise {A} (e : exn) : M A := fun w => (Err e, w).
Definition warn (e : log_entry) : M unit :=
  fun w => (Ok tt, World (files w) (log w ++ [e])).

Notation "x <- m ;; k" := (bind m (fun x => k))
  (at level 61, m at next level, right associativity).
Notation "m ;;; k" := (bind m (fun _ => k))
  (at level 61, right associativity).

Fixpoint file_lookup (p : string) (fs : list (string * table)) : option table :=
  match fs with
  | [] => None
  | (p', t) :: rest => if String.eqb p p' then Some t else file_lookup p rest
  end.

Fixpoint file_set (p : string) (t : table) (fs : list (string * table))
  : list (string * table) :=
  match fs with
  | [] => [(p, t)]
  | (p', t') :: rest =>
      if String.eqb p p' then (p', t) :: rest else (p', t') :: file_set p t rest
  end.

Definition get_file (p : string) : M (option table) :=
  fun w => (Ok (file_lookup p (files w)), w).

Definition header_encodable (cols : list pystr) : bool :=
  forallb (fun c => match utf8_encode (cps c) with Some _ => true | None => false end) cols.

Definition row_encodable (cols : list pystr) (r : row) : bool :=
  forallb (fun c => match utf8_encode (cps (cell_text (get_cell c r))) with
                    | Some _ => true | None => false end) cols.

Definition csv_encodable (t : table) : bool :=
  header_encodable (columns t) && forallb (row_encodable (columns t)) (rows t).

Fixpoint take_while {A} (p : A -> bool) (l : list A) : list A :=
  match l with
  | x :: rest => if p x then x :: take_while p rest else []
  | [] => []
  end.

(** What a failed [to_csv] leaves behind: the file was truncated when
    opened and each line goes out once encoded, so nothing is left if the
    header fails, else the header and the rows before the first failing
    one. *)
Definition partial_csv (t : table) : table :=
  if header_encodable (columns t)
  then Table (columns t) (map (to_row (columns t)) (take_while (row_encodable (columns t)) (rows t)))
  else Table [] [].

(** [df.to_csv(path, index=False)]: the file is opened with mode ['w'] and
    written as UTF-8 with strict errors, so a lone surrogate raises
    [UnicodeEncodeError] when its line is encoded. *)
Definition write_csv (p : string) (t : table) : M unit :=
  fun w =>
    if csv_encodable t then (Ok tt, World (file_set p (to_csv t) (files w)) (log w))
    else (Err UnicodeEncodeError, World (file_set p (partial_csv t) (files w)) (log w)).

Fixpoint mapM {A B} (f : A -> M B) (l : list A) : M (list B) :=
  match l with
  | [] => ret []
  | x :: rest => y <- f x ;; ys <- mapM f rest ;; ret (y :: ys)
  end.

(* ------------------------------------------------------------------ *)
(** ** The transform layer, over Python's [float] and pandas' date parser *)

Section Pipeline.

(** [float(s)] on a string: [None] where Python raises [ValueError]. *)
Variable py_float : pystr -> option Q.

(** [pd.to_datetime(x)] followed by [strftime('%Y-%m-%d')] on one
    non-missing cell: [None] where pandas cannot parse it. *)
Variable parse_date : cell -> option pystr.

(** Python truthiness, for [a or b]. *)
Definition truthy (j : json) : bool :=
  match j with
  | JNull => false
  | JBool b => b
  | JNum q => negb (Qeq_bool q 0)
  | JStr s => match cps s with [] => false | _ => true end
  | JArr l => match l with [] => false | _ => true end
  | JObj kv => match kv with [] => false | _ => true end
  end.

Definition py_or (a b : json) : json := if truthy a then a else b.

(** [Transform._to_float]: [None] stays [None]; a failed conversion
    ([ValueError] or [TypeError]) logs a warning and gives [None]. *)
Definition to_float (v : json) : M (option Q) :=
  match v with
  | JNull => ret None
  | JBool b => ret (Some (if b then 1 else 0)%Q)
  | JNum q => ret (Some q)
  | JStr s =>
      match py_float s with
      | Some q => ret (Some q)
      | None => warn (LogFloat v) ;;; ret None
      end
  | JArr _ | JObj _ => warn (LogFloat v) ;;; ret None
  end.

Definition cell_of_float (o : option Q) : cell :=
  match o with Some q => CNum q | None => CNull end.

(** The value [to_float] returns, apart from its warning. *)
Definition float_val (v : json) : option Q :=
  match v with
  | JNull => None
  | JBool b => Some (if b then 1 else 0)%Q
  | JNum q => Some q
  | JStr s => py_float s
  | JArr _ | JObj _ => None
  end.

(** [pd.to_datetime] on one cell: NaN stays NaN (NaT, then NaN after
    [strftime]); an unparsable value raises. *)
Definition conv_date (c : cell) : result cell :=
  match c with
  | CNull => Ok CNull
  | _ => match parse_date c with
         | Some s => Ok (CStr s)
         | None => Err DateParseError
         end
  end.

Fixpoint conv_rows (rs : list row) : result (list row) :=
  match rs with
  | [] => Ok []
  | r :: rest =>
      match conv_date (get_cell (lit "date") r), conv_rows rest with
      | Ok c, Ok rest' => Ok (dict_set (lit "date") c r :: rest')
      | Err e, _ | _, Err e => Err e
      end
  end.

(** [df['date'] = pd.to_datetime(df['date']).dt.strftime('%Y-%m-%d')] *)
Definition to_datetime_col (t : table) : result table :=
  match conv_rows (rows t) with
  | Ok rs => Ok (Table (columns t) rs)
  | Err e => Err e
  end.

(** [Transform._upsert_csv] *)
Definition upsert_csv (df : table) (path : string) (subset : list pystr) : M unit :=
  st <- get_file path ;;
  match st with
  | None => write_csv path df
  | Some file =>
      prev <- lift (read_csv file) ;;
      prev' <- (if memb (lit "date") (columns prev) then lift (to_datetime_col prev)
                else ret prev) ;;
      out <- lift (drop_duplicates subset (concat prev' df)) ;;
      write_csv path out
  end.

(** [for k, v in d.items()] *)
Definition items (j : json) : result (list (pystr * json)) :=
  match j with JObj kv => Ok kv | _ => Err AttributeError end.

(** [for x in j] *)
Definition iter_json (j : json) : result (list json) :=
  match j with
  | JArr l => Ok l
  | JObj kv => Ok (map (fun kv => JStr (fst kv)) kv)
  | JStr s => Ok (map (fun c => JStr (PyStr [c])) (cps s))
  | _ => Err TypeError
  end.

Definition ohlcv_fields : list (pystr * pystr) :=
  [(lit "open", lit "1. open"); (lit "high", lit "2. high"); (lit "low", lit "3. low");
   (lit "close", lit "4. close"); (lit "volume", lit "5. volume")].

Definition ohlc_fields : list (pystr * pystr) :=
  [(lit "open", lit "1. open"); (lit "high", lit "2. high"); (lit "low", lit "3. low");
   (lit "close", lit "4. close")].

(** One entry [k: v] of a daily series: ["instrument_id": hashing,
    "date": k, "open": self._to_float(v.get("1. open")), ...]. *)
Definition series_point (fields : list (pystr * pystr)) (hashing : pystr)
    (kv : pystr * json) : M row :=
  let '(k, v) := kv in
  cells <- mapM (fun f => x <- lift (dict_get v (snd f) JNull) ;;
                          o <- to_float x ;;
                          ret (fst f, cell_of_float o)) fields ;;
  ret ((lit "instrument_id", CStr hashing) :: (lit "date", CStr k) :: cells).

(** [if not df_ts.empty: df_ts['date'] = ...] *)
Definition normalize_dates (t : table) : M table :=
  if frame_empty t then ret t else lift (to_datetime_col t).

(** The loop over [time_series.items()] and the date normalisation. *)
Definition series_frame (fields : list (pystr * pystr)) (hashing : pystr)
    (entries : list (pystr * json)) : M table :=
  ts <- mapM (series_point fields hashing) entries ;;
  normalize_dates (frame ts).

(** [df_ts.dropna(subset=...)], inside the same [if not df_ts.empty]
    (the date conversion keeps the frame's rows and columns). *)
Definition drop_incomplete (subset : list pystr) (t : table) : M table :=
  if frame_empty t then ret t else lift (dropna_subset subset t).

Definition src_av : pystr := "Alpha Vantage".

(** The frames [transform_crypto] builds: [(df_meta, df_ts)]. *)
Definition crypto_frames (raw : json) : M (table * table) :=
  metadata <- lift (dict_get raw "Meta Data" (JObj [])) ;;
  time_series <- lift (dict_get raw "Time Series (Digital Currency Daily)" (JObj [])) ;;
  code <- lift (dict_get metadata "2. Digital Currency Code" JNull) ;;
  name <- lift (dict_get metadata "3. Digital Currency Name" JNull) ;;
  let currency_code := py_or code name in
  market_code <- lift (dict_get metadata "4. Market Code" JNull) ;;
  last_updated <- lift (dict_get metadata "6. Last Refreshed" JNull) ;;
  hashing <- lift (generate_hash_id src_av "cryptocurrency"
                     [py_or currency_code (JStr ""); py_or market_code (JStr "")]) ;;
  let meta : row :=
    [(lit "instrument_id", CStr hashing); (lit "source", CStr src_av);
     (lit "data_type", CStr "cryptocurrency");
     (lit "currency_code", cell_of_json currency_code);
     (lit "market_code", cell_of_json market_code);
     (lit "last_updated", cell_of_json last_updated)] in
  entries <- lift (items time_series) ;;
  df_ts <- series_frame ohlcv_fields hashing entries ;;
  ret (frame [meta], df_ts).

(** [Transform.transform_crypto] *)
Definition transform_crypto (raw : json) : M unit :=
  fr <- crypto_frames raw ;;
  upsert_csv (fst fr) "cryptocurrencies/instruments.csv" [lit "instrument_id"] ;;;
  upsert_csv (snd fr) "cryptocurrencies/timeseries.csv" [lit "instrument_id"; lit "date"].

(** [str(row.get('value')) != "."] is false exactly for the string ["."]. *)
Definition is_placeholder (v : json) : bool :=
  match v with JStr s => pystr_eqb s "." | _ => false end.

(** One commodity data point. *)
Definition commodity_point (hashing : pystr) (r : json) : M row :=
  v <- lift (dict_get r "value" JNull) ;;
  price <- (if negb (is_placeholder v)
            then (v' <- lift (dict_get r "value" JNull) ;; to_float v')
            else ret None) ;;
  d <- lift (dict_get r (lit "date") JNull) ;;
  ret [(lit "instrument_id", CStr hashing); (lit "date", cell_of_json d);
       (lit "price", cell_of_float price)].

(** The frames [transform_commodity] builds. *)
Definition commodity_frames (raw : json) : M (table * table) :=
  time_series <- lift (dict_get raw "data" (JArr [])) ;;
  info <- lift (dict_get raw "name" (JStr "")) ;;
  unit <- lift (dict_get raw "unit" (JStr "")) ;;
  hashing <- lift (generate_hash_id src_av "commodity" [info]) ;;
  let meta : row :=
    [(lit "instrument_id", CStr hashing); (lit "source", CStr src_av);
     (lit "data_type", CStr "commodity"); (lit "info", cell_of_json info);
     (lit "unit", cell_of_json unit)] in
  pts <- lift (iter_json time_series) ;;
  ts <- mapM (commodity_point hashing) pts ;;
  df_ts <- normalize_dates (frame ts) ;;
  df_ts' <- drop_incomplete [lit "instrument_id"; lit "date"; lit "price"] df_ts ;;
  ret (frame [meta], df_ts').

(** [Transform.transform_commodity] *)
Definition transform_commodity (raw : json) : M unit :=
  fr <- commodity_frames raw ;;
  upsert_csv (fst fr) "commodities/instruments.csv" [lit "instrument_id"] ;;;
  upsert_csv (snd fr) "commodities/timeseries.csv" [lit "instrument_id"; lit "date"].

(** [Transform.transform_exchange_rate] *)
Definition transform_exchange_rate (raw : json) : M unit :=
  block <- lift (dict_get raw "Realtime Currency Exchange Rate" JNull) ;;
  match block with
  | JNull =>
      warn (LogWarn "No 'Realtime Currency Exchange Rate' block found in raw data.") ;;;
      raise (ValueError "Missing 'Realtime Currency Exchange Rate' block in raw data")
  | _ =>
      from <- lift (dict_get block "1. From_Currency Code" (JStr "")) ;;
      to <- lift (dict_get block "3. To_Currency Code" (JStr "")) ;;
      hashing <- lift (generate_hash_id src_av "exchange_rate" [from; to]) ;;
      rate <- lift (dict_get block "5. Exchange Rate" JNull) ;;
      rate' <- to_float rate ;;
      refreshed <- lift (dict_get block "6. Last Refreshed" JNull) ;;
      bid <- lift (dict_get block "8. Bid Price" JNull) ;;
      bid' <- to_float bid ;;
      ask <- lift (dict_get block "9. Ask Price" JNull) ;;
      ask' <- to_float ask ;;
      let data : row :=
        [(lit "instrument_id", CStr hashing); (lit "source", CStr src_av);
         (lit "data_type", CStr "exchange_rate");
         (lit "from_currency_code", cell_of_json from);
         (lit "to_currency_code", cell_of_json to);
         (lit "exchange_rate", cell_of_float rate');
         (lit "last_refreshed", cell_of_json refreshed);
         (lit "bid_price", cell_of_float bid'); (lit "ask_price", cell_of_float ask')] in
      upsert_csv (frame [data]) "exchange_rates/exchange_rates.csv" [lit "instrument_id"]
  end.

Definition stock_value_cols : list pystr := [lit "open"; lit "high"; lit "low"; lit "close"; lit "volume"].
Definition forex_value_cols : list pystr := [lit "open"; lit "high"; lit "low"; lit "close"].

(** The frames [transform_stock] builds. *)
Definition stock_frames (raw : json) : M (table * table) :=
  metadata <- lift (dict_get raw "Meta Data" JNull) ;;
  time_series <- lift (dict_get raw "Time Series (Daily)" JNull) ;;
  match metadata, time_series with
  | JNull, _ | _, JNull =>
      warn (LogWarn "Missing 'Meta Data' or 'Time Series (Daily)' block in raw data.") ;;;
      raise (ValueError "Missing required data blocks in raw data")
  | _, _ =>
      last_updated <- lift (dict_get metadata "3. Last Refreshed" JNull) ;;
      symbol <- lift (dict_get metadata "2. Symbol" JNull) ;;
      hashing <- lift (generate_hash_id src_av "stock" [symbol]) ;;
      let meta : row :=
        [(lit "instrument_id", CStr hashing); (lit "source", CStr src_av);
         (lit "data_type", CStr "stock"); (lit "symbol", cell_of_json symbol);
         (lit "last_updated", cell_of_json last_updated)] in
      entries <- lift (items time_series) ;;
      df_ts <- series_frame ohlcv_fields hashing entries ;;
      df_ts' <- drop_incomplete (lit "instrument_id" :: lit "date" :: stock_value_cols) df_ts ;;
      ret (frame [meta], df_ts')
  end.

(** [Transform.transform_stock] *)
Definition transform_stock (raw : json) : M unit :=
  fr <- stock_frames raw ;;
  upsert_csv (fst fr) "stocks/instruments.csv" [lit "instrument_id"] ;;;
  upsert_csv (snd fr) "stocks/timeseries.csv" [lit "instrument_id"; lit "date"].

(** [metadata.get("2. From Symbol") + "_" + metadata.get("3. To Symbol")] *)
Definition str_plus (a b : json) : result pystr :=
  match a, b with
  | JStr x, JStr y => Ok (pycat x (pycat "_" y))
  | _, _ => Err TypeError
  end.

(** The frames [transform_forex] builds. *)
Definition forex_frames (raw : json) : M (table * table) :=
  metadata <- lift (dict_get raw "Meta Data" JNull) ;;
  time_series <- lift (dict_get raw "Time Series FX (Daily)" JNull) ;;
  match metadata, time_series with
  | JNull, _ | _, JNull =>
      warn (LogWarn "Missing 'Meta Data' or 'Time Series FX (Daily)' block in raw data.") ;;;
      raise (ValueError "Missing required data blocks in raw data")
  | _, _ =>
      from <- lift (dict_get metadata "2. From Symbol" JNull) ;;
      to <- lift (dict_get metadata "3. To Symbol" JNull) ;;
      symbol <- lift (str_plus from to) ;;
      last_updated <- lift (dict_get metadata "5. Last Refreshed" JNull) ;;
      hashing <- lift (generate_hash_id src_av "forex" [JStr symbol]) ;;
      let meta : row :=
        [(lit "instrument_id", CStr hashing); (lit "source", CStr src_av);
         (lit "data_type", CStr "forex"); (lit "symbol", CStr symbol);
         (lit "last_updated", cell_of_json last_updated)] in
      entries <- lift (items time_series) ;;
      df_ts <- series_frame ohlc_fields hashing entries ;;
      df_ts' <- drop_incomplete (lit "instrument_id" :: lit "date" :: forex_value_cols) df_ts ;;
      ret (frame [meta], df_ts')
  end.

(** [Transform.transform_forex] *)
Definition transform_forex (raw : json) : M unit :=
  fr <- forex_frames raw ;;
  upsert_csv (fst fr) "forex/instruments.csv" [lit "instrument_id"] ;;;
  upsert_csv (snd fr) "forex/timeseries.csv" [lit "instrument_id"; lit "date"].

(** [{**d1, **d2}] on rows. *)
Definition dict_merge (d1 d2 : row) : row :=
  fold_left (fun acc kv => dict_set (fst kv) (snd kv) acc) d2 d1.

(** [{"date": k, **v}]: [**] on a non-dict raises [TypeError]. *)
Definition statement_record (kv : pystr * json) : result row :=
  match snd kv with
  | JObj items =>
      Ok (dict_merge [(lit "date", CStr (fst kv))]
                     (map (fun p => (fst p, cell_of_json (snd p))) items))
  | _ => Err TypeError
  end.

Fixpoint statement_records (kvs : list (pystr * json)) : result (list row) :=
  match kvs with
  | [] => Ok []
  | kv :: rest =>
      if pystr_eqb (fst kv) "symbol" then statement_records rest
      else match statement_record kv, statement_records rest with
           | Ok r, Ok rs => Ok (r :: rs)
           | Err e, _ | _, Err e => Err e
           end
  end.

(** [Transform.financial_type] (the records; the symbol is not needed here). *)
Definition financial_type (file : json) : result (list row) :=
  match items file with
  | Ok kvs => statement_records kvs
  | Err e => Err e
  end.

(** [{"instrument_id": instrument_id, "symbol": ..., **rec}] *)
Definition financial_row (instrument_id : pystr) (symbol : cell) (rec : row) : row :=
  dict_merge [(lit "instrument_id", CStr instrument_id); (lit "symbol", symbol)] rec.

(** [int(len(fin_df.columns) * 0.4)]: the double [n * 0.4] never falls
    below an integer [2n/5], so the truncation is [2n/5] rounded down. *)
Definition thresh (ncols : nat) : nat := (2 * ncols / 5)%nat.

Definition is_na (c : cell) : bool := match c with CNull => true | _ => false end.

Definition count_non_na (cols : list pystr) (r : row) : nat :=
  List.length (filter (fun c => negb (is_na (get_cell c r))) cols).

(** A column [mean(numeric_only=True)] averages: numbers and NaN only. *)
Definition numeric_col (rs : list row) (c : pystr) : bool :=
  forallb (fun r => match get_cell c r with CNum _ | CNull => true | _ => false end) rs.

Fixpoint col_values (c : pystr) (rs : list row) : list Q :=
  match rs with
  | [] => []
  | r :: rest =>
      match get_cell c r with
      | CNum q => q :: col_values c rest
      | _ => col_values c rest
      end
  end.

Definition qsum (l : list Q) : Q := fold_right Qplus 0%Q l.

(** The mean of a column over the given rows: NaN when it has no value. *)
Definition col_mean (c : pystr) (rs : list row) : option Q :=
  match col_values c rs with
  | [] => None
  | vs => Some (qsum vs / inject_Z (Z.of_nat (List.length vs)))%Q
  end.

(** [fin_df.fillna(numeric_means)] on one cell. *)
Definition fill_cell (all kept : list row) (c : pystr) (x : cell) : cell :=
  match x with
  | CNull =>
      if numeric_col all c then
        match col_mean c kept with Some m => CNum m | None => CNull end
      else CNull
  | _ => x
  end.

(** Lines 537-545 of [transform_yahoo_financials]: build [fin_df],
    normalise its dates, drop rows with fewer than [thresh] non-NA
    cells, fill numeric gaps with the means of the surviving rows. *)
Definition clean_financials (financial_rows : list row) : result table :=
  let df := frame financial_rows in
  let cols := columns df in
  match (if memb "date" cols then to_datetime_col df else Ok df) with
  | Err e => Err e
  | Ok df1 =>
      let kept := filter (fun r => (thresh (List.length cols) <=? count_non_na cols r)%nat)
                         (rows df1) in
      Ok (Table cols (map (fun r => map (fun c => (c, fill_cell (rows df1) kept c (get_cell c r)))
                                        cols) kept))
  end.

(** The financials part of [transform_yahoo_financials]. *)
Definition save_financials (financial_rows : list row) : M unit :=
  match financial_rows with
  | [] => ret tt
  | _ =>
      fin_df <- lift (clean_financials financial_rows) ;;
      upsert_csv fin_df "yahoo_financials/financials.csv"
                 [lit "instrument_id"; lit "date"]
  end.

End Pipeline.

(* ------------------------------------------------------------------ *)
(** ** Concrete parsers for evaluating the pipeline on sample payloads *)

Definition digit_val (c : N) : option Z :=
  if (48 <=? c)%N && (c <=? 57)%N then Some (Z.of_N c - 48) else None.

Fixpoint digits_val (l : list N) (acc : Z) : option Z :=
  match l with
  | [] => Some acc
  | c :: rest =>
      match digit_val c with
      | Some d => digits_val rest (10 * acc + d)
      | None => None
      end
  end.

Fixpoint split_dot (l : list N) : list N * option (list N) :=
  match l with
  | [] => ([], None)
  | 46%N :: rest => ([], Some rest)
  | c :: rest => let '(a, b) := split_dot rest in (c :: a, b)
  end.

(** Python's [float()] on plain decimal literals ([-]digits[.digits]);
    every other string (["abc"], ["."], [""]) is rejected, as Python
    rejects these. Exponents, ["nan"] and ["inf"] are outside this model. *)
Definition decimal_float (s : pystr) : option Q :=
  let '(sign, body) :=
    match cps s with
    | 45%N :: r => (-1, r)
    | 43%N :: r => (1, r)
    | l => (1, l)
    end in
  let '(ip, fp) := split_dot body in
  let frac := match fp with Some f => f | None => [] end in
  match ip, frac with
  | [], [] => None
  | _, _ =>
      match digits_val ip 0, digits_val frac 0 with
      | Some i, Some f =>
          Some (inject_Z sign * (inject_Z i + inject_Z f / inject_Z (10 ^ Z.of_nat (List.length frac))))%Q
      | _, _ => None
      end
  end.

(** pandas' date parsing on ISO strings [YYYY-MM-DD] (month 01-12,
    day 01-31), which it re-emits unchanged; everything else, such as
    ["not-a-date"], is unparsable here as it is for pandas. *)
Definition iso_ok (s : pystr) : bool :=
  match cps s with
  | [y1; y2; y3; y4; dash1; m1; m2; dash2; d1; d2] =>
      match digits_val [y1; y2; y3; y4] 0, digits_val [m1; m2] 0, digits_val [d1; d2] 0 with
      | Some _, Some m, Some d =>
          (dash1 =? 45)%N && (dash2 =? 45)%N
          && (1 <=? m) && (m <=? 12) && (1 <=? d) && (d <=? 31)
      | _, _, _ => false
      end
  | _ => false
  end.

Definition iso_date (c : cell) : option pystr :=
  match c with
  | CStr s => if iso_ok s then Some s else None
  | _ => None
  end.

Definition empty_world : world := World [] [].

(** ** Auxiliary notions of the properties *)

Definition is_hex_digit (c : N) : Prop := (48 <= c <= 57)%N \/ (97 <= c <= 102)%N.

Section KeepLast.

Variable kf : row -> list keycell.

(** No row of [l] has the key of [r]. *)
Definition notin_keys (l : list row) (r : row) : bool :=
  negb (existsb (fun r' => key_eqb (kf r) (kf r')) l).

(** The last row of [l] with key [K]. *)
Fixpoint last_with (K : list keycell) (l : list row) : option row :=
  match l with
  | [] => None
  | r :: rest =>
      match last_with K rest with
      | Some x => Some x
      | None => if key_eqb (kf r) K then Some r else None
      end
  end.

End KeepLast.

(** A date cell as the store keeps it: missing, or a string that the date
    parser re-emits unchanged. *)
Definition canonical_date (pd : cell -> option pystr) (c : cell) : Prop :=
  c = CNull \/ exists s, c = CStr s /\ pd (CStr s) = Some s.

(** Every key cell of every row is hashable. *)
Definition hashable_keys (subset : list pystr) (l : list row) : Prop :=
  forall r, In r l -> ~ In KObj (row_key subset r).

(** A small store and batches used by the concrete checks below. *)
Definition ex_store_file : table :=
  Table [lit "instrument_id"; lit "v"] [[(lit "instrument_id", CStr "a"); (lit "v", CNum 1)]].

Definition ex_store : world := World [("t.csv"%string, ex_store_file)] [].

(** A batch with two rows for the same key. *)
Definition ex_batch : table :=
  Table [lit "instrument_id"; lit "v"]
        [[(lit "instrument_id", CStr "a"); (lit "v", CNum 2)];
         [(lit "instrument_id", CStr "a"); (lit "v", CNum 3)]].



(** A store whose key column holds digits only, and a batch with the same
    key text as a string. *)
Definition ex_num_store : world :=
  World [("n.csv"%string, Table [lit "k"; lit "v"] [[(lit "k", CStr "1"); (lit "v", CStr "old")]])] [].

Definition ex_num_batch : table :=
  Table [lit "k"; lit "v"] [[(lit "k", CStr "1"); (lit "v", CStr "new")]].

(** Key text and value of every row of the file at [p]. *)
Definition key_values (p : string) (w : world) : option (list (pystr * cell)) :=
  option_map (fun f => map (fun r => (cell_text (get_cell (lit "k") r), get_cell (lit "v") r)) (rows f))
             (file_lookup p (files w)).

(** A dated one-row batch. *)
Definition ex_dated : table :=
  Table [lit "instrument_id"; lit "date"; lit "v"]
        [[(lit "instrument_id", CStr "a"); (lit "date", CStr "2024-01-31"); (lit "v", CNum 2)]].

Definition ex_dated_key : list pystr := [lit "instrument_id"; lit "date"].

(** A commodity payload with two data points on the same date. *)
Definition ex_commodity_dup : json :=
  JObj [(lit "name", JStr "WTI"); (lit "unit", JStr "dollars per barrel");
        (lit "data", JArr [JObj [(lit "date", JStr "2024-01-31"); (lit "value", JStr "71.5")];
                           JObj [(lit "date", JStr "2024-01-31"); (lit "value", JStr "72.25")]])].

(** The rows [dropna(subset=cols)] keeps: no listed cell is missing. *)
Definition complete (cols : list pystr) (r : row) : bool :=
  forallb (fun c => match get_cell c r with CNull => false | _ => true end) cols.

(** The value of a successful result, [d] otherwise. *)
Definition result_default {A} (d : A) (r : result A) : A :=
  match r with Ok a => a | Err _ => d end.

(** A stock payload whose one data point has an unparsable open price. *)
Definition ex_stock_bad_open : json :=
  JObj [(lit "Meta Data", JObj [(lit "2. Symbol", JStr "IBM"); (lit "3. Last Refreshed", JStr "2024-01-31")]);
        (lit "Time Series (Daily)",
          JObj [(lit "2024-01-31", JObj [(lit "1. open", JStr "abc"); (lit "2. high", JStr "2.5");
                                         (lit "3. low", JStr "1.5"); (lit "4. close", JStr "2");
                                         (lit "5. volume", JStr "100")])])].

(** A computation that may log but writes no file. *)
Definition keeps_files {A} (m : M A) : Prop :=
  forall w r w', m w = (r, w') -> files w' = files w.

(** A stock payload with one parsable and one unparsable date. *)
Definition ex_stock_bad_date : json :=
  JObj [(lit "Meta Data", JObj [(lit "2. Symbol", JStr "IBM"); (lit "3. Last Refreshed", JStr "2024-01-31")]);
        (lit "Time Series (Daily)",
          JObj [(lit "2024-01-31", JObj [(lit "1. open", JStr "1"); (lit "2. high", JStr "2");
                                         (lit "3. low", JStr "1"); (lit "4. close", JStr "2");
                                         (lit "5. volume", JStr "100")]);
                (lit "not-a-date", JObj [(lit "1. open", JStr "1"); (lit "2. high", JStr "2");
                                         (lit "3. low", JStr "1"); (lit "4. close", JStr "2");
                                         (lit "5. volume", JStr "100")])])].

(** Two statement rows of ten line items each: the first complete, the
    second with seven of its ten line items (70%) missing. *)
Definition ex_fin_rows : list row :=
  [[(lit "instrument_id", CStr "x"); (lit "symbol", CStr "IBM"); (lit "date", CStr "2024-12-31"); (lit "i1", CNum 1); (lit "i2", CNum 2); (lit "i3", CNum 3); (lit "i4", CNum 4); (lit "i5", CNum 5); (lit "i6", CNum 6); (lit "i7", CNum 7); (lit "i8", CNum 8); (lit "i9", CNum 9); (lit "i10", CNum 10)];
   [(lit "instrument_id", CStr "x"); (lit "symbol", CStr "IBM"); (lit "date", CStr "2023-12-31"); (lit "i1", CNum 5); (lit "i2", CNum 5); (lit "i3", CNum 5); (lit "i4", CNull); (lit "i5", CNull); (lit "i6", CNull); (lit "i7", CNull); (lit "i8", CNull); (lit "i9", CNull); (lit "i10", CNull)]].

(** Three statement rows with ten line items: one complete, one with
    seven line items missing, one with eight missing. *)
Definition ex_fin_sparse : list row :=
  [[(lit "instrument_id", CStr "x"); (lit "symbol", CStr "IBM"); (lit "date", CStr "2024-12-31"); (lit "i1", CNum 1); (lit "i2", CNum 2); (lit "i3", CNum 3); (lit "i4", CNum 4); (lit "i5", CNum 5); (lit "i6", CNum 6); (lit "i7", CNum 7); (lit "i8", CNum 8); (lit "i9", CNum 9); (lit "i10", CNum 10)];
   [(lit "instrument_id", CStr "x"); (lit "symbol", CStr "IBM"); (lit "date", CStr "2023-12-31"); (lit "i1", CNum 5); (lit "i2", CNum 5); (lit "i3", CNum 5); (lit "i4", CNull); (lit "i5", CNull); (lit "i6", CNull); (lit "i7", CNull); (lit "i8", CNull); (lit "i9", CNull); (lit "i10", CNull)];
   [(lit "instrument_id", CStr "x"); (lit "symbol", CStr "IBM"); (lit "date", CStr "2022-12-31"); (lit "i1", CNum 6); (lit "i2", CNum 6); (lit "i3", CNull); (lit "i4", CNull); (lit "i5", CNull); (lit "i6", CNull); (lit "i7", CNull); (lit "i8", CNull); (lit "i9", CNull); (lit "i10", CNull)]].

(** Number of missing line items [i1] .. [i10] of a row. *)
Definition missing_items (r : row) : nat :=
  List.length (filter (fun c => match get_cell c r with CNull => true | _ => false end)
                      (map lit ["i1"; "i2"; "i3"; "i4"; "i5"; "i6"; "i7"; "i8"; "i9"; "i10"]%string)).

(** The same currency described by its code only, and by its name only. *)
Definition ex_crypto_code : json :=
  JObj [(lit "Meta Data", JObj [(lit "2. Digital Currency Code", JStr "BTC");
                               (lit "4. Market Code", JStr "USD")])].

Definition ex_crypto_name : json :=
  JObj [(lit "Meta Data", JObj [(lit "3. Digital Currency Name", JStr "Bitcoin");
                               (lit "4. Market Code", JStr "USD")])].

(* ------------------------------------------------------------------ *)
(** ** The Yahoo Finance helpers and the folder loop of [Transform.transform] *)

(** The keys [Transform.info_type] leaves out of the information table. *)
Definition info_excluded : list pystr := [lit "sector_top_companies"; lit "companyOfficers"].

(** One iteration of the loop of [Transform.info_type]. *)
Definition info_step (acc : list (pystr * json) * json) (kv : pystr * json)
  : list (pystr * json) * json :=
  let '(info, officers) := acc in
  let '(k, v) := kv in
  if pystr_eqb k "companyOfficers" then (info, v)
  else if negb (memb k info_excluded) then (dict_set k v info, officers)
  else (info, officers).

(** [Transform.info_type]: [(information_table, company_officers_table)],
    the latter [{}] when the file has no ["companyOfficers"]. *)
Definition info_type (file : json) : result (list (pystr * json) * json) :=
  match items file with
  | Ok kvs => Ok (fold_left info_step kvs ([], JObj []))
  | Err e => Err e
  end.

(** The symbol [Transform.financial_type] returns: [file.get('symbol') or ""]. *)
Definition financial_symbol (file : json) : result json :=
  match dict_get file "symbol" JNull with
  | Ok s => Ok (py_or s (JStr ""))
  | Err e => Err e
  end.

(** A dict as a DataFrame row. *)
Definition json_row (kv : list (pystr * json)) : row :=
  map (fun p => (fst p, cell_of_json (snd p))) kv.

(** [{"instrument_id": ..., "symbol": ..., **officer}] for every officer;
    [**] on a non-dict raises [TypeError]. *)
Fixpoint officer_rows (instrument_id : pystr) (symbol : cell) (offs : list json)
  : result (list row) :=
  match offs with
  | [] => Ok []
  | JObj kv :: rest =>
      match officer_rows instrument_id symbol rest with
      | Ok rs => Ok (dict_merge [(lit "instrument_id", CStr instrument_id); (lit "symbol", symbol)]
                                (json_row kv) :: rs)
      | Err e => Err e
      end
  | _ :: _ => Err TypeError
  end.

Definition yahoo_src : pystr := "Yahoo Financials".

(** One iteration of the per-symbol loop of
    [Transform.transform_yahoo_financials]: the rows it appends to
    [info_rows], [officers_rows] and [financial_rows]. [info] and [fin]
    are the loaded [SYMBOL_info.json] and [SYMBOL_financials.json], when
    the file exists. *)
Definition yahoo_symbol (symbol : pystr) (info fin : option json)
  : result (list row * list row * list row) :=
  match (match info with Some raw => info_type raw | None => Ok ([], JArr []) end) with
  | Err e => Err e
  | Ok (info_table0, officers) =>
      let info_table1 :=
        match assoc "symbol" info_table0 with
        | Some _ => info_table0
        | None => dict_set "symbol" (JStr symbol) info_table0
        end in
      match (match fin with
             | None => Ok ([], info_table1)
             | Some raw =>
                 match financial_symbol raw, financial_type raw with
                 | Ok sym, Ok recs =>
                     Ok (recs,
                         match assoc "symbol" info_table1 with
                         | None => if truthy sym then dict_set "symbol" sym info_table1 else info_table1
                         | Some _ => info_table1
                         end)
                 | Err e, _ | _, Err e => Err e
                 end
             end) with
      | Err e => Err e
      | Ok (finance_records, info_table) =>
          let sym := match assoc "symbol" info_table with Some v => v | None => JStr symbol end in
          match generate_hash_id yahoo_src "financials" [sym] with
          | Err e => Err e
          | Ok instrument_id =>
              let info_rows :=
                match info_table with
                | [] => []
                | _ => [dict_merge [(lit "instrument_id", CStr instrument_id)] (json_row info_table)]
                end in
              match iter_json officers with
              | Err e => Err e
              | Ok offs =>
                  match officer_rows instrument_id (cell_of_json sym) offs with
                  | Err e => Err e
                  | Ok ors =>
                      Ok (info_rows, ors,
                          map (financial_row instrument_id (cell_of_json sym)) finance_records)
                  end
              end
          end
      end
  end.

(** [file_name.endswith(suffix)] *)
Definition ends_with (suffix s : string) : bool :=
  let n := String.length s in
  let m := String.length suffix in
  (m <=? n)%nat && String.eqb (substring (n - m) m s) suffix.

(** The [match folder] of [Transform.transform] on one loaded file. *)
Definition dispatch pf pd (folder file_name : string) (raw : json) : M unit :=
  if String.eqb folder "commodities" then transform_commodity pf pd raw
  else if String.eqb folder "cryptocurrencies" then transform_crypto pf pd raw
  else if String.eqb folder "exchange_rates" then transform_exchange_rate pf pd raw
  else if String.eqb folder "forex" then transform_forex pf pd raw
  else if String.eqb folder "stocks" then transform_stock pf pd raw
  else warn (LogWarn ("Unknown folder: " ++ folder ++ ", skipping file: " ++ file_name)).

(** The file loop of [Transform.transform] over one folder other than
    ["yahoo_financials"], in [os.listdir] order; each file comes with the
    outcome of [load_json] on it, an exception stopping the loop. *)
Fixpoint transform_folder pf pd (folder : string) (fs : list (string * result json)) : M unit :=
  match fs with
  | [] => ret tt
  | (file_name, content) :: rest =>
      (if ends_with ".json" file_name
       then raw <- lift content ;; dispatch pf pd folder file_name raw
       else ret tt) ;;;
      transform_folder pf pd folder rest
  end.

(** A JSON value that is not a string: [generate_hash_id] refuses it. *)
Definition not_str (j : json) : Prop := match j with JStr _ => False | _ => True end.

(** The folders [Transform.transform] dispatches on. *)
Definition known_folders : list string :=
  ["commodities"; "cryptocurrencies"; "exchange_rates"; "forex"; "stocks"].

(** A one-row batch for a key the small store does not have. *)
Definition ex_batch_b : table :=
  Table [lit "instrument_id"; lit "v"] [[(lit "instrument_id", CStr "b"); (lit "v", CNum 5)]].
(** A stock payload whose metadata has no symbol. *)
Definition ex_stock_no_symbol : json :=
  JObj [(lit "Meta Data", JObj [(lit "3. Last Refreshed", JStr "2024-01-31")]);
        (lit "Time Series (Daily)", JObj [])].
(** A crypto payload whose one data point has an unparsable open price and no other value. *)
Definition ex_crypto_bad_values : json :=
  JObj [(lit "Meta Data", JObj [(lit "2. Digital Currency Code", JStr "BTC"); (lit "4. Market Code", JStr "USD")]);
        (lit "Time Series (Digital Currency Daily)", JObj [(lit "2024-01-31", JObj [(lit "1. open", JStr "abc")])])].
(** The files of a folder: two JSON files and a text file that does not load. *)
Definition ex_folder_files : list (string * result json) :=
  [("a.json"%string, Ok JNull); ("notes.txt"%string, Err TypeError); ("b.json"%string, Ok (JObj []))].
(** A Yahoo Finance info file and a financials file for the symbol IBM. *)
Definition ex_yahoo_info : json :=
  JObj [(lit "symbol", JStr "IBM"); (lit "longName", JStr "IBM Corp");
        (lit "companyOfficers", JArr [JObj [(lit "name", JStr "A. Person")]]);
        (lit "sector_top_companies", JArr [])].
Definition ex_yahoo_fin : json :=
  JObj [(lit "symbol", JStr "IBM"); (lit "2024-12-31", JObj [(lit "TotalRevenue", JNum 1)])].
(** The entries of an info file whose symbol is a number. *)
Definition ex_yahoo_info_num_symbol : list (pystr * json) := [(lit "symbol", JNum 7)].

(* ------------------------------------------------------------------ *)
(** ** The rest of [Transform.transform_yahoo_financials] *)

(** [str(n)] for a natural number, in decimal. *)
Fixpoint str_of_nat_aux (fuel n : nat) (acc : string) : string :=
  match fuel with
  | O => acc
  | S f =>
      let acc' := String (ascii_of_nat (48 + n mod 10)) acc in
      if (n <? 10)%nat then acc' else str_of_nat_aux f (n / 10) acc'
  end.

Definition str_of_nat (n : nat) : string := str_of_nat_aux (S n) n "".

Section YahooFinancials.

Variable parse_date : cell -> option pystr.

(** [astype(str)] on a number and on a nested JSON value: Python's [str]. *)
Variable str_num : Q -> pystr.
Variable str_obj : json -> pystr.

(** The regular expression classes [\d] and [\s] on code points. *)
Variable is_digit_cp : N -> bool.
Variable is_space_cp : N -> bool.

(** One symbol: its name and, when present, the loaded info and
    financials files ([load_json] raises on a file it cannot read). *)
Definition yahoo_entry : Type := (pystr * option (result json) * option (result json))%type.

(** One iteration of the per-symbol loop, the loads included: the info
    file is loaded and split first, then the financials file is loaded. *)
Definition yahoo_load (e : yahoo_entry) : result (list row * list row * list row) :=
  let '(symbol, inf, fi) := e in
  match inf with
  | Some (Err err) => Err err
  | _ =>
      let info := match inf with Some (Ok j) => Some j | _ => None end in
      match fi with
      | Some (Err err) =>
          match (match info with Some raw => info_type raw | None => Ok ([], JArr []) end) with
          | Err err' => Err err'
          | Ok _ => Err err
          end
      | Some (Ok j) => yahoo_symbol symbol info (Some j)
      | None => yahoo_symbol symbol info None
      end
  end.

(** The loop over the sorted symbols: the rows of every symbol, appended in order. *)
Fixpoint yahoo_rows (entries : list yahoo_entry) : result (list row * list row * list row) :=
  match entries with
  | [] => Ok ([], [], [])
  | e :: rest =>
      match yahoo_load e with
      | Err err => Err err
      | Ok (i, o, f) =>
          match yahoo_rows rest with
          | Err err => Err err
          | Ok (i', o', f') => Ok (i ++ i', o ++ o', f ++ f')
          end
      end
  end.

(** [str(v)] of a cell of [info_df]. A missing value is modelled as
    ["nan"], as [astype(str)] gives before pandas 3; pandas 3 keeps it
    missing instead; the cleaning theorem below leaves this case out. *)
Definition py_str_cell (c : cell) : pystr :=
  match c with
  | CNull => "nan"
  | CBool true => "True"
  | CBool false => "False"
  | CNum q => str_num q
  | CStr s => s
  | CObj j => str_obj j
  end.

(** [.str.replace(r"\D", "", regex=True).str.replace(r"\s", "", regex=True)] *)
Definition strip_non_digits (s : pystr) : pystr :=
  PyStr (filter (fun c => negb (is_space_cp c)) (filter is_digit_cp (cps s))).

(** [info_df[col] = info_df[col].astype(str)...] when [col] is a column. *)
Definition clean_digits_col (col : pystr) (t : table) : table :=
  if memb col (columns t)
  then Table (columns t)
             (map (fun r => dict_set col (CStr (strip_non_digits (py_str_cell (get_cell col r)))) r)
                  (rows t))
  else t.

(** [info_df.drop(columns=["ipoExpectedDate"], errors="ignore")] *)
Definition drop_col (col : pystr) (t : table) : table :=
  Table (filter (fun c => negb (pystr_eqb c col)) (columns t))
        (map (filter (fun kv => negb (pystr_eqb (fst kv) col))) (rows t)).

(** The basic cleaning of [info_df]. *)
Definition clean_info (info_rows : list row) : table :=
  drop_col "ipoExpectedDate"
    (fold_left (fun t col => clean_digits_col col t) [lit "zip"; lit "phone"] (frame info_rows)).

(** The three CSV files written once the loop is done. *)
Definition yahoo_save (info_rows officers_rows financial_rows : list row) : M unit :=
  (match info_rows with
   | [] => ret tt
   | _ => upsert_csv parse_date (clean_info info_rows) "yahoo_financials/information.csv"
                     [lit "instrument_id"]
   end) ;;;
  (match officers_rows with
   | [] => ret tt
   | _ => upsert_csv parse_date (frame officers_rows) "yahoo_financials/company_officers.csv"
                     [lit "instrument_id"; lit "name"]
   end) ;;;
  (match financial_rows with
   | [] => ret tt
   | _ =>
       fin_df <- lift (clean_financials parse_date financial_rows) ;;
       let removed := (List.length financial_rows - List.length (rows fin_df))%nat in
       (if (0 <? removed)%nat
        then warn (LogWarn ("Removed " ++ str_of_nat removed
                            ++ " financial records due to excessive missing values"))
        else ret tt) ;;;
       upsert_csv parse_date fin_df "yahoo_financials/financials.csv"
                  [lit "instrument_id"; lit "date"]
   end).

(** [Transform.transform_yahoo_financials] on the symbols of a directory,
    in sorted order. *)
Definition transform_yahoo_financials (entries : list yahoo_entry) : M unit :=
  match entries with
  | [] => warn (LogWarn "No Yahoo Finance files found.")
  | _ =>
      rs <- lift (yahoo_rows entries) ;;
      let '(info_rows, officers_rows, financial_rows) := rs in
      yahoo_save info_rows officers_rows financial_rows
  end.

End YahooFinancials.

(** The files [transform_yahoo_financials] writes. *)
Definition yahoo_paths : list string :=
  ["yahoo_financials/information.csv"; "yahoo_financials/company_officers.csv";
   "yahoo_financials/financials.csv"].

(** ASCII digits and whitespace, for evaluating the cleaning on samples. *)
Definition ascii_digit (c : N) : bool := (48 <=? c)%N && (c <=? 57)%N.
Definition ascii_space (c : N) : bool := (c =? 32)%N || ((9 <=? c)%N && (c <=? 13)%N).
(** Two symbols: one with both files, one with an info file only. *)
Definition ex_yahoo_entries : list yahoo_entry :=
  [(lit "IBM", Some (Ok ex_yahoo_info), Some (Ok ex_yahoo_fin));
   (lit "MSFT", Some (Ok (JObj [(lit "longName", JStr "Microsoft"); (lit "zip", JStr "98052-6399")])), None)].
(** The same symbols, the second info file unreadable. *)
Definition ex_yahoo_entries_bad : list yahoo_entry :=
  [(lit "IBM", Some (Ok ex_yahoo_info), Some (Ok ex_yahoo_fin));
   (lit "MSFT", Some (Err (ValueError "Expecting value")), None)].

(* ------------------------------------------------------------------ *)
(** ** [Transform.load_raw_data] *)

(** Does [p] start the code points [s]? *)
Fixpoint prefixb (p s : list N) : bool :=
  match p, s with
  | [], _ => true
  | a :: p', b :: s' => (a =? b)%N && prefixb p' s'
  | _ :: _, [] => false
  end.

(** [s.replace(old, "")] for a non-empty [old]: every occurrence, left to
    right, is removed; [fuel] is the length of [s]. *)
Fixpoint remove_all_aux (fuel : nat) (old s : list N) : list N :=
  match fuel with
  | O => s
  | S f =>
      match s with
      | [] => []
      | c :: rest =>
          if prefixb old s then remove_all_aux f old (skipn (List.length old) s)
          else c :: remove_all_aux f old rest
      end
  end.

Definition py_remove (old s : pystr) : pystr :=
  PyStr (remove_all_aux (List.length (cps s)) (cps old) (cps s)).

(** [load_json] on each file of a folder, in listing order; the first failure raises. *)
Fixpoint load_files (contents : list (result json)) : result (list json) :=
  match contents with
  | [] => Ok []
  | Ok j :: rest => match load_files rest with Ok js => Ok (j :: js) | Err e => Err e end
  | Err e :: _ => Err e
  end.

(** The loop over the folders: [files[folder] = []], then one [append] per file.
    A folder's listing is [Err] when [os.listdir] fails on it. *)
Fixpoint load_folders (entries : list (pystr * result (list (result json))))
    (files : list (pystr * list json)) : result (list (pystr * list json)) :=
  match entries with
  | [] => Ok files
  | (folder, listing) :: rest =>
      match listing with
      | Err e => Err e
      | Ok contents =>
          match load_files contents with
          | Err e => Err e
          | Ok js => load_folders rest (dict_set folder js files)
          end
      end
  end.

(** [Transform.load_raw_data] on the listing of a directory
    ([os.listdir] order); the check that [target_dir] is a directory is
    left to the caller. *)
Definition load_raw_data (entries : list (pystr * result (list (result json))))
    : result (list (pystr * list json)) :=
  match load_folders entries [] with
  | Err e => Err e
  | Ok files =>
      Ok (fold_left (fun acc kv => dict_set (py_remove ".json" (fst kv)) (snd kv) acc) files [])
  end.

(** A directory listing whose folders [stocks.json] and [stocks] share a key. *)
Definition ex_raw_listing : list (pystr * result (list (result json))) :=
  [(lit "stocks.json", Ok [Ok JNull]); (lit "stocks", Ok [Ok (JObj [])]); (lit "forex", Ok [])].
(** A listing with one file that does not parse. *)
Definition ex_raw_listing_bad : list (pystr * result (list (result json))) :=
  [(lit "stocks", Ok [Ok (JObj [])]); (lit "forex", Ok [Err (ValueError "Expecting value"); Ok JNull])].

(* ================================================================== *)
(** * Properties *)

(** ** The identity hash *)

Lemma le_bytes_length n x : List.length (MD5.le_bytes n x) = n.
Proof. revert x; induction n; intros; simpl; auto. Qed.

Lemma digest_length m : List.length (MD5.digest m) = 16%nat.
Proof.
  unfold MD5.digest.
  destruct (MD5.blocks _ _ _) as [[[a b] c] d].
  rewrite !List.length_app, !le_bytes_length; reflexivity.
Qed.

Lemma le_bytes_range n x : Forall (fun b => 0 <= b < 256) (MD5.le_bytes n x).
Proof.
  revert x; induction n; intros; simpl; constructor; auto.
  change 255 with (Z.ones 8). rewrite Z.land_ones by lia.
  apply Z.mod_pos_bound; reflexivity.
Qed.

Lemma digest_range m : Forall (fun b => 0 <= b < 256) (MD5.digest m).
Proof.
  unfold MD5.digest.
  destruct (MD5.blocks _ _ _) as [[[a b] c] d].
  rewrite !Forall_app; repeat split; apply le_bytes_range.
Qed.


Lemma hex_char_digit n : 0 <= n < 16 -> is_hex_digit (MD5.hex_char n).
Proof.
  intros H; unfold MD5.hex_char, is_hex_digit.
  destruct (Z.ltb_spec n 10); [left | right]; lia.
Qed.

Lemma hex_pairs_shape l :
  Forall (fun b => 0 <= b < 256) l ->
  let h := flat_map (fun byte => [MD5.hex_char (byte / 16); MD5.hex_char (byte mod 16)]) l in
  List.length h = (2 * List.length l)%nat /\ Forall is_hex_digit h.
Proof.
  induction 1 as [|b bs Hb Hbs IH]; simpl in *.
  - split; [reflexivity | constructor].
  - destruct IH as [IH1 IH2]. split.
    + lia.
    + constructor; [apply hex_char_digit|constructor; [apply hex_char_digit|exact IH2]].
      * split; [apply Z.div_pos; lia | apply Z.div_lt_upper_bound; lia].
      * apply Z.mod_pos_bound; lia.
Qed.

Lemma hexdigest_shape m :
  List.length (cps (MD5.hexdigest m)) = 32%nat /\ Forall is_hex_digit (cps (MD5.hexdigest m)).
Proof.
  unfold MD5.hexdigest; simpl.
  destruct (hex_pairs_shape _ (digest_range m)) as [L F].
  rewrite digest_length in L. split; assumption.
Qed.

Lemma str_args_strings ds : str_args (map JStr ds) = Ok ds.
Proof. induction ds as [|d ds IH]; simpl; [reflexivity | now rewrite IH]. Qed.

Lemma pycat_nil_r a : pycat a (PyStr []) = a.
Proof. destruct a; unfold pycat; simpl; now rewrite app_nil_r. Qed.

Example md5_empty : MD5.hexdigest [] = "d41d8cd98f00b204e9800998ecf8427e".
Proof. vm_compute. reflexivity. Qed.

Example generate_hash_id_btc_usd :
  generate_hash_id "Alpha Vantage" "cryptocurrency" [JStr "BTC"; JStr "USD"]
  = Ok (lit "dcf68a210088123b03d346754b29d359").
Proof. vm_compute. reflexivity. Qed.

Lemma str_args_not_str args a : In a args -> not_str a -> str_args args = Err TypeError.
Proof.
  induction args as [|x args IH]; intros Hin Hn; [destruct Hin|].
  destruct Hin as [->|Hin].
  - destruct a; try contradiction; reflexivity.
  - destruct x; try reflexivity. cbn [str_args]. now rewrite IH.
Qed.

Lemma utf8_cp_surrogate c : (55296 <= c <= 57343)%N -> utf8_cp c = None.
Proof.
  intros [H1 H2]. unfold utf8_cp.
  replace (Z.of_N c <? 128) with false by (symmetry; apply Z.ltb_ge; lia).
  replace (Z.of_N c <? 2048) with false by (symmetry; apply Z.ltb_ge; lia).
  replace ((55296 <=? Z.of_N c) && (Z.of_N c <=? 57343)) with true
    by (symmetry; apply andb_true_iff; split; apply Z.leb_le; lia).
  reflexivity.
Qed.

Lemma utf8_encode_none l c : In c l -> utf8_cp c = None -> utf8_encode l = None.
Proof.
  induction l as [|x l IH]; intros Hin Hc; [destruct Hin|]. cbn [utf8_encode].
  destruct Hin as [->|Hin].
  - now rewrite Hc.
  - rewrite (IH Hin Hc). now destruct (utf8_cp x).
Qed.

Lemma pyjoin_In sep ds d c : In d ds -> In c (cps d) -> In c (cps (pyjoin sep ds)).
Proof.
  induction ds as [|x ds IH]; intros Hd Hc; [destruct Hd|].
  destruct ds as [|y ds'].
  - destruct Hd as [->|[]]. exact Hc.
  - cbn [pyjoin]. unfold pycat. cbn [cps]. apply in_or_app.
    destruct Hd as [->|Hd]; [now left|right]. apply in_or_app. right. exact (IH Hd Hc).
Qed.

(** C1 (amended): [generate_hash_id] hashes the UTF-8 bytes of
    [source|data_type|] followed by the discriminators joined with [|]:
    with at least one discriminator this is the [|]-join of all of them,
    with none the basis keeps a trailing [|]. The result is the 32
    lowercase hex digits of the 128-bit MD5 digest; a discriminator that
    is not a [str] raises [TypeError], and a string with a lone surrogate
    cannot be encoded and raises [UnicodeEncodeError]. *)
Theorem generate_hash_id_md5_of_basis (source data_type : pystr) (ds : list pystr) :
  generate_hash_id source data_type (map JStr ds) =
    match utf8_encode (cps (hash_basis source data_type ds)) with
    | Some bytes => Ok (MD5.hexdigest bytes)
    | None => Err UnicodeEncodeError
    end
  /\ (forall d ds', hash_basis source data_type (d :: ds')
                    = pyjoin "|" (source :: data_type :: d :: ds'))
  /\ hash_basis source data_type [] = pycat source (pycat "|" (pycat data_type "|"))
  /\ match generate_hash_id source data_type (map JStr ds) with
     | Ok h => List.length (cps h) = 32%nat /\ Forall is_hex_digit (cps h)
     | Err e => e = UnicodeEncodeError
     end
  /\ (forall args a, In a args -> not_str a -> generate_hash_id source data_type args = Err TypeError)
  /\ (forall d c, In d ds -> In c (cps d) -> (55296 <= c <= 57343)%N ->
      generate_hash_id source data_type (map JStr ds) = Err UnicodeEncodeError).
Proof.
  assert (E : generate_hash_id source data_type (map JStr ds) =
    match utf8_encode (cps (hash_basis source data_type ds)) with
    | Some bytes => Ok (MD5.hexdigest bytes)
    | None => Err UnicodeEncodeError
    end).
  { unfold generate_hash_id. now rewrite str_args_strings. }
  split; [exact E|]. split; [|split; [|split; [|split]]].
  - intros d ds'. reflexivity.
  - unfold hash_basis; simpl. now rewrite pycat_nil_r.
  - rewrite E. destruct (utf8_encode _); [apply hexdigest_shape | reflexivity].
  - intros args a Hin Hn. unfold generate_hash_id. now rewrite (str_args_not_str args a Hin Hn).
  - intros d c Hd Hc Hs. rewrite E.
    replace (utf8_encode (cps (hash_basis source data_type ds))) with (@None (list Z)); [reflexivity|].
    symmetry. apply (utf8_encode_none _ c); [|now apply utf8_cp_surrogate].
    unfold hash_basis, pycat. cbn [cps]. apply in_or_app; right. apply in_or_app; right.
    apply in_or_app; right. apply in_or_app; right. exact (pyjoin_In _ _ _ _ Hd Hc).
Qed.

Lemma generate_hash_id_md5_of_basis_witness :
  generate_hash_id src_av "stock" [JStr "IBM"; JNum 1] = Err TypeError
  /\ generate_hash_id src_av "stock" (map JStr [PyStr [55296%N]]) = Err UnicodeEncodeError.
Proof.
  destruct (generate_hash_id_md5_of_basis src_av "stock" [PyStr [55296%N]]) as [_ [_ [_ [_ [Ht Hs]]]]].
  split.
  - apply (Ht [JStr "IBM"; JNum 1] (JNum 1)); [right; left; reflexivity|exact I].
  - apply (Hs (PyStr [55296%N]) 55296%N); [left; reflexivity|left; reflexivity|lia].
Defined.

(** C1 (counterexample): with no discriminator the basis is not the
    [|]-join of source and data type ([Alpha Vantage|stock|] is hashed,
    not [Alpha Vantage|stock]); and a lone surrogate in a discriminator
    makes the call raise instead of returning an ID. *)
Lemma generate_hash_id_not_plain_join :
  (exists bytes,
     utf8_encode (cps (pyjoin "|" [lit "Alpha Vantage"; lit "stock"])) = Some bytes /\
     generate_hash_id "Alpha Vantage" "stock" [] <> Ok (MD5.hexdigest bytes))
  /\ generate_hash_id "Alpha Vantage" "stock" [JStr (PyStr [55296%N])]
     = Err UnicodeEncodeError.
Proof.
  split.
  - eexists; split; [vm_compute; reflexivity|].
    vm_compute. intros H; inversion H.
  - vm_compute. reflexivity.
Qed.

(** ** Keys, rows and the CSV round trip *)

Lemma pystr_eqb_eq a b : pystr_eqb a b = true <-> a = b.
Proof. unfold pystr_eqb; destruct (pystr_eq_dec a b); split; congruence. Qed.

Lemma key_eqb_eq a b : key_eqb a b = true <-> a = b.
Proof. unfold key_eqb; destruct (list_eq_dec keycell_eq_dec a b); split; congruence. Qed.

Lemma key_eqb_sym a b : key_eqb a b = key_eqb b a.
Proof.
  destruct (key_eqb a b) eqn:E; destruct (key_eqb b a) eqn:E2; try reflexivity.
  - apply key_eqb_eq in E; subst. rewrite <- E2. symmetry. now apply key_eqb_eq.
  - apply key_eqb_eq in E2; subst. rewrite <- E. now apply key_eqb_eq.
Qed.

Lemma memb_In c cs : memb c cs = true <-> In c cs.
Proof.
  unfold memb; rewrite existsb_exists; split.
  - intros [x [Hx E]]. apply pystr_eqb_eq in E. now subst.
  - intros H. exists c. split; [exact H | now apply pystr_eqb_eq].
Qed.

Lemma assoc_to_row c cols r :
  assoc c (to_row cols r) = if memb c cols then Some (get_cell c r) else None.
Proof.
  unfold to_row; induction cols as [|c' cols IH]; simpl; [reflexivity|].
  unfold memb in *; simpl.
  destruct (pystr_eqb c c') eqn:E; simpl.
  - apply pystr_eqb_eq in E. now subst.
  - exact IH.
Qed.

Lemma get_cell_to_row c cols r :
  get_cell c (to_row cols r) = if memb c cols then get_cell c r else CNull.
Proof. unfold get_cell at 1. rewrite assoc_to_row. now destruct (memb c cols). Qed.

Lemma to_row_idem cols r : to_row cols (to_row cols r) = to_row cols r.
Proof.
  unfold to_row at 1 3. apply map_ext_in. intros c Hc.
  rewrite get_cell_to_row. apply memb_In in Hc. now rewrite Hc.
Qed.

Lemma row_key_to_row subset cols r :
  (forall c, In c subset -> In c cols) ->
  row_key subset (to_row cols r) = row_key subset r.
Proof.
  intros H. unfold row_key. apply map_ext_in. intros c Hc.
  rewrite get_cell_to_row. apply H, memb_In in Hc. now rewrite Hc.
Qed.


Lemma file_set_set p t t' fs : file_set p t (file_set p t' fs) = file_set p t fs.
Proof.
  induction fs as [|[p' u] fs IH]; cbn [file_set].
  - now rewrite String.eqb_refl.
  - destruct (String.eqb p p') eqn:E; cbn [file_set]; rewrite ?E; [reflexivity|now rewrite IH].
Qed.

(** ** The upsert *)

Lemma filter_map_to_row subset cols K l :
  (forall c, In c subset -> In c cols) ->
  filter (fun r => key_eqb (row_key subset r) K) (map (to_row cols) l)
  = map (to_row cols) (filter (fun r => key_eqb (row_key subset r) K) l).
Proof.
  intros H. induction l as [|r l IH]; simpl; [reflexivity|].
  rewrite row_key_to_row by exact H.
  destruct (key_eqb (row_key subset r) K); simpl; now rewrite IH.
Qed.

(** ** Merging twice *)

(** C2 (counterexample): the store file holds [k,v] / [1,old]; merging a
    batch with [k = '1'] and [v = 'new'] keeps both rows. [read_csv] reads
    the stored key back as the number 1, which is not a duplicate of the
    string ['1'], so the old value survives next to the new one. *)
Lemma upsert_csv_numeric_key_keeps_old :
  fst (upsert_csv iso_date ex_num_batch "n.csv" [lit "k"] ex_num_store) = Ok tt
  /\ key_values "n.csv" (snd (upsert_csv iso_date ex_num_batch "n.csv" [lit "k"] ex_num_store))
     = Some [(lit "1", CStr "old"); (lit "1", CStr "new")].
Proof. split; vm_compute; reflexivity. Qed.

(** C3 (counterexample): merging the one-row batch [k = '1'] into a world
    without the store writes one row; merging it again reads the key back
    as the number 1, keeps both rows and leaves two rows with key text 1. *)
Lemma upsert_csv_twice_duplicates_row :
  let once := upsert_csv iso_date ex_num_batch "n.csv" [lit "k"] empty_world in
  let twice := upsert_csv iso_date ex_num_batch "n.csv" [lit "k"] (snd once) in
  fst once = Ok tt /\ fst twice = Ok tt
  /\ key_values "n.csv" (snd once) = Some [(lit "1", CStr "new")]
  /\ key_values "n.csv" (snd twice) = Some [(lit "1", CStr "new"); (lit "1", CStr "new")].
Proof. vm_compute. repeat split. Qed.


Lemma existsb_false {A} (f : A -> bool) l :
  existsb f l = false <-> forall x, In x l -> f x = false.
Proof.
  split.
  - intros H x Hx. destruct (f x) eqn:E; [|reflexivity].
    assert (existsb f l = true) by (apply existsb_exists; eauto). congruence.
  - intros H. destruct (existsb f l) eqn:E; [|reflexivity].
    apply existsb_exists in E as [x [Hx E]]. now rewrite H in E.
Qed.

Lemma hashable_keys_existsb subset l :
  hashable_keys subset l <->
  existsb (fun r => existsb (fun k => match k with KObj => true | _ => false end)
                            (row_key subset r)) l = false.
Proof.
  unfold hashable_keys. rewrite existsb_false. split; intros H r Hr; specialize (H r Hr).
  - apply existsb_false. intros k Hk. destruct k; try reflexivity. contradiction.
  - intros Hin. rewrite existsb_false in H. specialize (H KObj Hin). discriminate.
Qed.

Lemma col_union_In a b c : In c b -> In c (col_union a b).
Proof.
  intros H. unfold col_union. apply in_or_app.
  destruct (memb c a) eqn:E; [left; now apply memb_In|right; apply filter_In; now rewrite E].
Qed.

Lemma col_union_incl a b : (forall c, In c b -> In c a) -> col_union a b = a.
Proof.
  intros H. unfold col_union. transitivity (a ++ []); [f_equal|apply app_nil_r].
  induction b as [|c b IH]; simpl; [reflexivity|].
  replace (memb c a) with true by (symmetry; apply memb_In, H; now left). simpl.
  apply IH. intros; apply H; now right.
Qed.

Lemma col_union_nil_l b : col_union [] b = b.
Proof. unfold col_union. induction b as [|c b IH]; simpl in *; [reflexivity|now rewrite IH]. Qed.

Lemma filter_idem {A} (f : A -> bool) l : filter f (filter f l) = filter f l.
Proof.
  induction l as [|x l IH]; simpl; [reflexivity|].
  destruct (f x) eqn:E; simpl; rewrite ?E; congruence.
Qed.

Lemma dict_set_same {A} k (v : A) d : assoc k d = Some v -> dict_set k v d = d.
Proof.
  induction d as [|[k' v'] d IH]; simpl; [discriminate|].
  destruct (pystr_eqb k k'); intros H; [now inversion H|now rewrite IH].
Qed.

Lemma assoc_dict_set {A} k (v : A) d : assoc k (dict_set k v d) = Some v.
Proof.
  induction d as [|[k' v'] d IH]; simpl.
  - now replace (pystr_eqb k k) with true by (symmetry; now apply pystr_eqb_eq).
  - destruct (pystr_eqb k k') eqn:E; simpl; rewrite ?E; [reflexivity|exact IH].
Qed.

Lemma iso_date_idem c s : iso_date c = Some s -> iso_date (CStr s) = Some s.
Proof.
  destruct c; simpl; try discriminate.
  destruct (iso_ok s0) eqn:E; intros H; inversion H; subst. simpl. now rewrite E.
Qed.

(** ** The time-series store after one run *)

(** C4 (code bug): a commodity payload with two data points on one date,
    transformed into a missing store, leaves two time-series rows with the
    same [(instrument_id, date)]: the first write skips the
    deduplication. *)
Lemma transform_commodity_duplicate_key_rows :
  fst (transform_commodity decimal_float iso_date ex_commodity_dup empty_world) = Ok tt
  /\ match file_lookup "commodities/timeseries.csv"
            (files (snd (transform_commodity decimal_float iso_date ex_commodity_dup empty_world))) with
     | Some t =>
         match map (row_key [lit "instrument_id"; lit "date"]) (rows t) with
         | [k1; k2] => key_eqb k1 k2 = true
         | _ => False
         end
     | None => False
     end.
Proof. split; vm_compute; reflexivity. Defined.

(** ** Payloads without their data blocks *)

Lemma file_lookup_set_other p p' t fs :
  p <> p' -> file_lookup p (file_set p' t fs) = file_lookup p fs.
Proof.
  intros Hne. induction fs as [|[q u] fs IH]; cbn [file_set file_lookup].
  - destruct (String.eqb_spec p p'); congruence.
  - destruct (String.eqb_spec p' q) as [->|Hq]; cbn [file_lookup].
    + destruct (String.eqb_spec p q); congruence.
    + destruct (String.eqb p q); [reflexivity|exact IH].
Qed.







(** ** Which time-series rows are dropped *)

Ltac run_binds H :=
  repeat match type of H with
         | context [match ?x with _ => _ end] =>
             let E := fresh "E" in destruct x eqn:E; try discriminate H
         end.

Lemma mapM_forall {A B} (f : A -> M B) (P : B -> Prop) l w ys w' :
  (forall x w y w', f x w = (Ok y, w') -> P y) ->
  mapM f l w = (Ok ys, w') -> Forall P ys.
Proof.
  intros Hf. revert w ys. induction l as [|x l IH]; intros w ys H; cbn [mapM] in H; unfold ret, bind in H.
  - inversion H; constructor.
  - destruct (f x w) as [[y|e] w1] eqn:E1; [|discriminate].
    destruct (mapM f l w1) as [[ys'|e] w2] eqn:E2; [|discriminate].
    inversion H; subst. constructor; [eapply Hf; exact E1|eapply IH; exact E2].
Qed.

Lemma fold_cols_mono (rs : list row) acc c :
  In c acc -> In c (fold_left (fun acc (r : row) => col_union acc (map fst r)) rs acc).
Proof.
  revert acc. induction rs as [|r rs IH]; intros acc H; simpl; [exact H|].
  apply IH. unfold col_union. apply in_or_app. now left.
Qed.

Lemma frame_cols rs r c : In r rs -> In c (map fst r) -> In c (columns (frame rs)).
Proof.
  unfold frame; cbn [columns]. generalize (@nil pystr) as acc.
  induction rs as [|x rs IH]; intros acc Hr Hc; [destruct Hr|].
  destruct Hr as [<-|Hr]; simpl.
  - apply fold_cols_mono, col_union_In, Hc.
  - now apply IH.
Qed.

Lemma conv_rows_length pd rs rs' : conv_rows pd rs = Ok rs' -> length rs' = length rs.
Proof.
  revert rs'. induction rs as [|r rs IH]; intros rs' H; cbn [conv_rows] in H.
  - now inversion H.
  - destruct (conv_date pd (get_cell "date" r)); [|destruct (conv_rows pd rs); discriminate].
    destruct (conv_rows pd rs) as [t|e] eqn:E; [|discriminate].
    inversion H; subst. simpl. now rewrite (IH t).
Qed.

Lemma normalize_dates_ok pd t w t' w' :
  normalize_dates pd t w = (Ok t', w') ->
  w' = w /\ columns t' = columns t /\ length (rows t') = length (rows t)
  /\ (frame_empty t = true -> t' = t).
Proof.
  unfold normalize_dates, ret, lift, to_datetime_col.
  destruct (frame_empty t) eqn:Fe.
  - intros H. inversion H; subst. tauto.
  - destruct (conv_rows pd (rows t)) as [rs|e] eqn:E; intros H; inversion H; subst.
    cbn [columns rows]. split; [reflexivity|]. split; [reflexivity|].
    split; [eapply conv_rows_length; exact E|discriminate].
Qed.

Lemma frame_empty_cases t : frame_empty t = true -> rows t = [] \/ columns t = [].
Proof. unfold frame_empty. destruct (columns t), (rows t); auto; discriminate. Qed.

Lemma drop_incomplete_ok subset t w t' w' :
  drop_incomplete subset t w = (Ok t', w') ->
  w' = w /\ rows t' = if frame_empty t then rows t else filter (complete subset) (rows t).
Proof.
  unfold drop_incomplete, ret, lift, dropna_subset.
  destruct (frame_empty t).
  - intros H. now inversion H.
  - destruct (negb _); intros H; inversion H; subst. split; reflexivity.
Qed.

(** The frame after the date normalisation of rows that all carry an
    [instrument_id]: empty only when it has no rows. *)
Lemma normalized_frame_filter pd rs w t0 w' cols :
  Forall (fun r => In (lit "instrument_id") (map fst r)) rs ->
  normalize_dates pd (frame rs) w = (Ok t0, w') ->
  (if frame_empty t0 then rows t0 else filter (complete cols) (rows t0))
  = filter (complete cols) (rows t0).
Proof.
  intros Hid Hn. destruct (frame_empty t0) eqn:Fe; [|reflexivity].
  apply normalize_dates_ok in Hn as [_ [Hc [Hl He]]].
  destruct (frame_empty_cases t0 Fe) as [R|C]; [now rewrite R|].
  destruct rs as [|r rs].
  - destruct (frame_empty (frame [])) eqn:F0; [now rewrite He|discriminate].
  - exfalso. inversion Hid as [|? ? Hr _]; subst.
    assert (In (lit "instrument_id") (columns (frame (r :: rs)))) as Hin
      by (eapply frame_cols; [now left|exact Hr]).
    rewrite <- Hc, C in Hin. exact Hin.
Qed.

Lemma series_point_id pf fields h kv w r w' :
  series_point pf fields h kv w = (Ok r, w') -> In (lit "instrument_id") (map fst r).
Proof.
  destruct kv as [k v]. unfold series_point, bind, ret.
  destruct (mapM _ fields w) as [[cells|e] w1]; intros H; inversion H; subst. now left.
Qed.

Lemma commodity_point_id pf h x w r w' :
  commodity_point pf h x w = (Ok r, w') -> In (lit "instrument_id") (map fst r).
Proof.
  unfold commodity_point, bind, ret, lift. intros H. run_binds H.
  all: inversion H; subst; now left.
Qed.

Lemma series_frame_filter pf pd fields h entries w t0 w' cols :
  series_frame pf pd fields h entries w = (Ok t0, w') ->
  (if frame_empty t0 then rows t0 else filter (complete cols) (rows t0))
  = filter (complete cols) (rows t0).
Proof.
  unfold series_frame, bind. intros H.
  destruct (mapM (series_point pf fields h) entries w) as [[rs|e] w1] eqn:E; [|discriminate].
  eapply normalized_frame_filter; [|exact H].
  eapply mapM_forall; [|exact E]. intros x w2 y w3. apply series_point_id.
Qed.

Ltac run_binds' H :=
  repeat (cbn beta iota in H;
          match type of H with
          | context [match ?x with _ => _ end] =>
              let E := fresh "E" in destruct x eqn:E; try discriminate H
          end).

Lemma assoc_dict_set_other {A} k c (v : A) d : k <> c -> assoc c (dict_set k v d) = assoc c d.
Proof.
  intros Hk. induction d as [|[k' v'] d IH]; cbn [dict_set assoc].
  - destruct (pystr_eqb c k) eqn:E; [apply pystr_eqb_eq in E; congruence|reflexivity].
  - destruct (pystr_eqb k k') eqn:E1; cbn [assoc].
    + apply pystr_eqb_eq in E1; subst.
      destruct (pystr_eqb c k') eqn:E2; [apply pystr_eqb_eq in E2; congruence|reflexivity].
    + destruct (pystr_eqb c k'); [reflexivity|exact IH].
Qed.

Lemma assoc_notin {A} k (d : list (pystr * A)) : ~ In k (map fst d) -> assoc k d = None.
Proof.
  induction d as [|[k' v'] d IH]; intros H; cbn [assoc]; [reflexivity|].
  destruct (pystr_eqb k k') eqn:E.
  - apply pystr_eqb_eq in E; subst. exfalso; apply H; now left.
  - apply IH. intros Hin; apply H; now right.
Qed.

Lemma to_float_val pf x w o w' : to_float pf x w = (Ok o, w') -> o = float_val pf x.
Proof.
  unfold to_float, float_val, ret, warn, bind.
  destruct x; try (intros H; now inversion H).
  match goal with |- context [pf ?s] => destruct (pf s) end; intros H; now inversion H.
Qed.

Lemma mapM_Forall2 {A B} (f : A -> M B) (R : A -> B -> Prop) l w ys w' :
  (forall x w y w', f x w = (Ok y, w') -> R x y) ->
  mapM f l w = (Ok ys, w') -> Forall2 R l ys.
Proof.
  intros Hf. revert w ys. induction l as [|x l IH]; intros w ys H; cbn [mapM] in H; unfold ret, bind in H.
  - inversion H; constructor.
  - destruct (f x w) as [[y|e] w1] eqn:E1; [|discriminate].
    destruct (mapM f l w1) as [[ys'|e] w2] eqn:E2; [|discriminate].
    inversion H; subst. constructor; [eapply Hf; exact E1|eapply IH; exact E2].
Qed.

Lemma Forall2_compose {A B C} (R1 : A -> B -> Prop) (R2 : B -> C -> Prop) l1 l2 l3 :
  Forall2 R1 l1 l2 -> Forall2 R2 l2 l3 -> Forall2 (fun a c => exists b, R1 a b /\ R2 b c) l1 l3.
Proof.
  intros H1. revert l3. induction H1 as [|a b l1 l2 Hab _ IH]; intros l3 H2; inversion H2; subst; constructor; eauto.
Qed.

Lemma Forall2_impl' {A B} (R R' : A -> B -> Prop) l1 l2 :
  (forall a b, R a b -> R' a b) -> Forall2 R l1 l2 -> Forall2 R' l1 l2.
Proof. intros H HF. induction HF; constructor; auto. Qed.

Lemma get_cell_head c x r : get_cell c ((c, x) :: r) = x.
Proof.
  unfold get_cell; cbn [assoc].
  now replace (pystr_eqb c c) with true by (symmetry; now apply pystr_eqb_eq).
Qed.

Lemma get_cell_other c c' x r : c <> c' -> get_cell c ((c', x) :: r) = get_cell c r.
Proof.
  intros H. unfold get_cell; cbn [assoc].
  destruct (pystr_eqb c c') eqn:E; [apply pystr_eqb_eq in E; congruence|reflexivity].
Qed.

(** In a row built field by field, each field's cell is found under its
    name when the names are distinct. *)
Lemma get_cell_fields (fields : list (pystr * pystr)) (cells : row) (P : pystr * pystr -> cell -> Prop) f :
  NoDup (map fst fields) ->
  Forall2 (fun f c => fst c = fst f /\ P f (snd c)) fields cells ->
  In f fields -> P f (get_cell (fst f) cells).
Proof.
  intros Hn HF. induction HF as [|g [n x] gs cs [Hg Hp] _ IH]; intros Hin; [destruct Hin|].
  cbn [fst snd map] in *. subst n. inversion Hn as [|? ? Hnot Hn']; subst.
  destruct Hin as [<-|Hin].
  - now rewrite get_cell_head.
  - rewrite get_cell_other; [now apply IH|].
    intros E. apply Hnot. rewrite <- E. now apply in_map.
Qed.

Lemma series_point_cells pf fields h kv w r w' :
  series_point pf fields h kv w = (Ok r, w') ->
  exists cells, r = (lit "instrument_id", CStr h) :: (lit "date", CStr (fst kv)) :: cells
  /\ Forall2 (fun f c => fst c = fst f /\ exists x, dict_get (snd kv) (snd f) JNull = Ok x
                                         /\ snd c = cell_of_float (float_val pf x)) fields cells.
Proof.
  destruct kv as [k v]. unfold series_point, bind, ret.
  destruct (mapM _ fields w) as [[cells|e] w1] eqn:E; intros H; inversion H; subst.
  exists cells. split; [reflexivity|].
  eapply mapM_Forall2; [|exact E]. intros f w2 c w3 Hf. cbn beta in Hf.
  unfold lift, bind, ret in Hf. destruct (dict_get v (snd f) JNull) as [x|e] eqn:Ed; [|discriminate].
  destruct (to_float pf x w2) as [[o|e] w4] eqn:Ef; [|discriminate].
  inversion Hf; subst. split; [reflexivity|]. exists x. split; [exact Ed|].
  cbn [snd]. now rewrite (to_float_val _ _ _ _ _ Ef).
Qed.

Lemma series_point_row pf fields h kv w r w' :
  NoDup (map fst fields) -> ~ In (lit "date") (map fst fields) -> ~ In (lit "instrument_id") (map fst fields) ->
  series_point pf fields h kv w = (Ok r, w') ->
  get_cell "instrument_id" r = CStr h /\ get_cell "date" r = CStr (fst kv)
  /\ forall f, In f fields -> exists x, dict_get (snd kv) (snd f) JNull = Ok x
                                 /\ get_cell (fst f) r = cell_of_float (float_val pf x).
Proof.
  intros Hn Hd Hi H. apply series_point_cells in H as [cells [-> HF]].
  split; [apply get_cell_head|]. split; [rewrite get_cell_other by discriminate; apply get_cell_head|].
  intros f Hf. assert (Hfi : fst f <> lit "instrument_id") by (intros E; apply Hi; rewrite <- E; now apply in_map).
  assert (Hfd : fst f <> lit "date") by (intros E; apply Hd; rewrite <- E; now apply in_map).
  rewrite !get_cell_other by assumption.
  apply (get_cell_fields fields cells
           (fun f c => exists x, dict_get (snd kv) (snd f) JNull = Ok x /\ c = cell_of_float (float_val pf x)));
    assumption.
Qed.

Lemma commodity_point_row pf h p w r w' :
  commodity_point pf h p w = (Ok r, w') ->
  get_cell "instrument_id" r = CStr h
  /\ exists v d, dict_get p "value" JNull = Ok v /\ dict_get p "date" JNull = Ok d
     /\ get_cell "date" r = cell_of_json d
     /\ get_cell "price" r = cell_of_float (if is_placeholder v then None else float_val pf v).
Proof.
  unfold commodity_point, bind, lift, ret.
  destruct (dict_get p "value" JNull) as [v|e] eqn:Ev; [|intros H; discriminate].
  destruct (is_placeholder v) eqn:Pv; cbn [negb].
  - destruct (dict_get p "date" JNull) as [d|e] eqn:Ed; intros H; inversion H; subst.
    split; [apply get_cell_head|]. exists v, d. split; [reflexivity|]. split; [reflexivity|].
    split; [rewrite get_cell_other by discriminate; apply get_cell_head|].
    rewrite !get_cell_other by discriminate. now rewrite get_cell_head, Pv.
  - destruct (to_float pf v w) as [[o|e] w1] eqn:Ef; [|intros H; discriminate].
    destruct (dict_get p "date" JNull) as [d|e] eqn:Ed; intros H; inversion H; subst.
    split; [apply get_cell_head|]. exists v, d. split; [reflexivity|]. split; [reflexivity|].
    split; [rewrite get_cell_other by discriminate; apply get_cell_head|].
    rewrite !get_cell_other by discriminate. rewrite get_cell_head, Pv.
    now rewrite (to_float_val _ _ _ _ _ Ef).
Qed.

Lemma conv_rows_Forall2 pd rs rs' :
  conv_rows pd rs = Ok rs' ->
  Forall2 (fun r r' => conv_date pd (get_cell "date" r) = Ok (get_cell "date" r')
                       /\ forall c, c <> lit "date" -> get_cell c r' = get_cell c r) rs rs'.
Proof.
  revert rs'. induction rs as [|r rs IH]; intros rs' H; cbn [conv_rows] in H.
  - inversion H; constructor.
  - destruct (conv_date pd (get_cell "date" r)) as [c|e] eqn:Ec;
      [|destruct (conv_rows pd rs); discriminate].
    destruct (conv_rows pd rs) as [t|e] eqn:E; [|discriminate].
    inversion H; subst. constructor; [|now apply IH].
    split.
    + unfold get_cell at 2. now rewrite assoc_dict_set.
    + intros c' Hc'. unfold get_cell. rewrite assoc_dict_set_other; [reflexivity|congruence].
Qed.

(** The date normalisation of a frame keeps its rows one for one:
    each date cell is converted, every other cell is kept. *)
Lemma normalize_dates_rows pd rs w t0 w' :
  normalize_dates pd (frame rs) w = (Ok t0, w') ->
  Forall2 (fun r r' => conv_date pd (get_cell "date" r) = Ok (get_cell "date" r')
                       /\ forall c, c <> lit "date" -> get_cell c r' = get_cell c r) rs (rows t0).
Proof.
  unfold normalize_dates, ret, lift, to_datetime_col.
  destruct (frame_empty (frame rs)) eqn:Fe.
  - intros H. inversion H; subst; clear H. cbn [rows frame].
    assert (Hnil : forall r, In r rs -> r = []).
    { intros r Hr. destruct r as [|[c x] r]; [reflexivity|exfalso].
      assert (Hc : In c (columns (frame rs))) by (eapply frame_cols; [exact Hr|now left]).
      destruct (frame_empty_cases _ Fe) as [R|C].
      - cbn [rows frame] in R. subst rs. destruct Hr.
      - rewrite C in Hc. destruct Hc. }
    clear Fe. induction rs as [|r rs IH]; constructor.
    + rewrite (Hnil r (or_introl eq_refl)). split; [reflexivity|auto].
    + apply IH. intros r' Hr'. apply Hnil. now right.
  - destruct (conv_rows pd (rows (frame rs))) as [rs'|e] eqn:E; intros H; inversion H; subst.
    now apply conv_rows_Forall2.
Qed.

Ltac names_distinct := let H := fresh in intros H; vm_compute in H; intuition discriminate.

(** The rows of a daily series frame, one per entry of the series: the
    instrument hash, the converted date, and for every field the float
    conversion of the entry's value under that field's key. *)
Lemma series_frame_rows pf pd fields h ents w t0 w' :
  NoDup (map fst fields) -> ~ In (lit "date") (map fst fields) -> ~ In (lit "instrument_id") (map fst fields) ->
  series_frame pf pd fields h ents w = (Ok t0, w') ->
  Forall2 (fun kv r => get_cell "instrument_id" r = CStr h
             /\ conv_date pd (CStr (fst kv)) = Ok (get_cell "date" r)
             /\ forall f, In f fields -> exists x, dict_get (snd kv) (snd f) JNull = Ok x
                   /\ get_cell (fst f) r = cell_of_float (float_val pf x)) ents (rows t0).
Proof.
  intros Hn Hd Hi. unfold series_frame, bind.
  destruct (mapM (series_point pf fields h) ents w) as [[rs|e] w1] eqn:Em; [|discriminate].
  intros Hs.
  assert (F1 := mapM_Forall2 _ _ _ _ _ _ (fun kv w2 r w3 => series_point_row pf fields h kv w2 r w3 Hn Hd Hi) Em).
  assert (F2 := normalize_dates_rows _ _ _ _ _ Hs).
  eapply Forall2_impl'; [|exact (Forall2_compose _ _ _ _ _ F1 F2)].
  intros kv r' [r [[Hid [Hdt Hf]] [Hc Ho]]].
  split; [rewrite Ho by discriminate; exact Hid|]. split; [rewrite <- Hdt; exact Hc|].
  intros f Hin. destruct (Hf f Hin) as [x [Hx Hv]]. exists x. split; [exact Hx|].
  rewrite Ho; [exact Hv|]. intros E. apply Hd. rewrite <- E. now apply in_map.
Qed.

Lemma commodity_rows pf pd h pts w rs w1 t0 w' :
  mapM (commodity_point pf h) pts w = (Ok rs, w1) ->
  normalize_dates pd (frame rs) w1 = (Ok t0, w') ->
  Forall2 (fun p r => get_cell "instrument_id" r = CStr h
             /\ exists v d, dict_get p "value" JNull = Ok v /\ dict_get p "date" JNull = Ok d
                /\ conv_date pd (cell_of_json d) = Ok (get_cell "date" r)
                /\ get_cell "price" r = cell_of_float (if is_placeholder v then None else float_val pf v))
          pts (rows t0).
Proof.
  intros Em Hs.
  assert (F1 := mapM_Forall2 _ _ _ _ _ _ (fun p w2 r w3 => commodity_point_row pf h p w2 r w3) Em).
  assert (F2 := normalize_dates_rows _ _ _ _ _ Hs).
  eapply Forall2_impl'; [|exact (Forall2_compose _ _ _ _ _ F1 F2)].
  intros p r' [r [[Hid [v [d [Hv [Hd [Hdt Hp]]]]]] [Hc Ho]]].
  split; [rewrite Ho by discriminate; exact Hid|].
  exists v, d. split; [exact Hv|]. split; [exact Hd|]. split; [rewrite <- Hdt; exact Hc|].
  rewrite Ho by discriminate. exact Hp.
Qed.

(** C6 (amended): the stock, forex and commodity transformers keep a
    time-series row exactly when none of its key and value cells is
    missing. The frame they filter has one row per entry of the payload's
    series block, in order: the hash of the payload's symbol (stock,
    forex) or name (commodity), the converted date, and each value field
    ([open] .. [volume] from ["1. open"] .. ["5. volume"]; commodity
    [price] from ["value"], null for ["."]) as the float conversion of the
    entry's value, null where it fails. The rows passed on are the rows
    of that frame with [instrument_id], [date] and every value column
    non-null, so one value that fails conversion is enough to drop the
    row. *)
Theorem transform_drops_incomplete_rows pf pd raw w fr w' :
  (stock_frames pf pd raw w = (Ok fr, w') ->
   exists md sym ents h t0,
     dict_get raw "Meta Data" JNull = Ok md /\ dict_get md "2. Symbol" JNull = Ok sym
     /\ generate_hash_id src_av "stock" [sym] = Ok h
     /\ dict_get raw "Time Series (Daily)" JNull = Ok (JObj ents)
     /\ Forall2 (fun kv r => get_cell "instrument_id" r = CStr h
                   /\ conv_date pd (CStr (fst kv)) = Ok (get_cell "date" r)
                   /\ forall f, In f ohlcv_fields -> exists x, dict_get (snd kv) (snd f) JNull = Ok x
                         /\ get_cell (fst f) r = cell_of_float (float_val pf x)) ents (rows t0)
     /\ rows (snd fr) = filter (complete (lit "instrument_id" :: lit "date" :: stock_value_cols)) (rows t0))
  /\ (forex_frames pf pd raw w = (Ok fr, w') ->
   exists md from to sym ents h t0,
     dict_get raw "Meta Data" JNull = Ok md
     /\ dict_get md "2. From Symbol" JNull = Ok from /\ dict_get md "3. To Symbol" JNull = Ok to
     /\ str_plus from to = Ok sym /\ generate_hash_id src_av "forex" [JStr sym] = Ok h
     /\ dict_get raw "Time Series FX (Daily)" JNull = Ok (JObj ents)
     /\ Forall2 (fun kv r => get_cell "instrument_id" r = CStr h
                   /\ conv_date pd (CStr (fst kv)) = Ok (get_cell "date" r)
                   /\ forall f, In f ohlc_fields -> exists x, dict_get (snd kv) (snd f) JNull = Ok x
                         /\ get_cell (fst f) r = cell_of_float (float_val pf x)) ents (rows t0)
     /\ rows (snd fr) = filter (complete (lit "instrument_id" :: lit "date" :: forex_value_cols)) (rows t0))
  /\ (commodity_frames pf pd raw w = (Ok fr, w') ->
   exists info ts pts h t0,
     dict_get raw "name" (JStr "") = Ok info /\ generate_hash_id src_av "commodity" [info] = Ok h
     /\ dict_get raw "data" (JArr []) = Ok ts /\ iter_json ts = Ok pts
     /\ Forall2 (fun p r => get_cell "instrument_id" r = CStr h
                   /\ exists v d, dict_get p "value" JNull = Ok v /\ dict_get p "date" JNull = Ok d
                      /\ conv_date pd (cell_of_json d) = Ok (get_cell "date" r)
                      /\ get_cell "price" r = cell_of_float (if is_placeholder v then None else float_val pf v))
                 pts (rows t0)
     /\ rows (snd fr) = filter (complete [lit "instrument_id"; lit "date"; lit "price"]) (rows t0)).
Proof.
  split; [|split].
  - unfold stock_frames, bind, lift, ret, warn, raise. intros H. run_binds' H.
    inversion H; subst; clear H.
    lazymatch goal with
    | Em : dict_get raw (lit "Meta Data") JNull = Ok ?md,
      Et : dict_get raw (lit "Time Series (Daily)") JNull = Ok ?ts,
      Es : dict_get ?md (lit "2. Symbol") JNull = Ok ?sym,
      Eh : generate_hash_id _ _ _ = Ok ?h,
      Ei : items ?ts = Ok ?ents,
      Ef : series_frame _ _ _ _ _ ?w1 = (Ok ?t0, _),
      Ed : drop_incomplete _ _ _ = _ |- _ =>
        destruct (drop_incomplete_ok _ _ _ _ _ Ed) as [-> Hr];
        exists md, sym, ents, h, t0;
        split; [first [exact Em|reflexivity]|]; split; [first [exact Es|reflexivity]|]; split; [first [exact Eh|reflexivity]|];
        split; [cbn in Ei; inversion Ei; subst; first [exact Et|reflexivity]|];
        split; [eapply series_frame_rows; [cbn [map fst ohlcv_fields ohlc_fields]; repeat (apply NoDup_cons; [names_distinct|]); apply NoDup_nil|names_distinct|names_distinct|exact Ef]|];
        cbn [snd]; rewrite Hr; eapply series_frame_filter; exact Ef
    end.
  - unfold forex_frames, bind, lift, ret, warn, raise. intros H. run_binds' H.
    inversion H; subst; clear H.
    lazymatch goal with
    | Em : dict_get raw (lit "Meta Data") JNull = Ok ?md,
      Et : dict_get raw (lit "Time Series FX (Daily)") JNull = Ok ?ts,
      Efr : dict_get ?md (lit "2. From Symbol") JNull = Ok ?from,
      Eto : dict_get ?md (lit "3. To Symbol") JNull = Ok ?to,
      Esp : str_plus ?from ?to = Ok ?sym,
      Eh : generate_hash_id _ _ _ = Ok ?h,
      Ei : items ?ts = Ok ?ents,
      Ef : series_frame _ _ _ _ _ ?w1 = (Ok ?t0, _),
      Ed : drop_incomplete _ _ _ = _ |- _ =>
        destruct (drop_incomplete_ok _ _ _ _ _ Ed) as [-> Hr];
        exists md, from, to, sym, ents, h, t0;
        split; [first [exact Em|reflexivity]|]; split; [first [exact Efr|reflexivity]|]; split; [first [exact Eto|reflexivity]|]; split; [first [exact Esp|reflexivity]|];
        split; [first [exact Eh|reflexivity]|];
        split; [cbn in Ei; inversion Ei; subst; first [exact Et|reflexivity]|];
        split; [eapply series_frame_rows; [cbn [map fst ohlcv_fields ohlc_fields]; repeat (apply NoDup_cons; [names_distinct|]); apply NoDup_nil|names_distinct|names_distinct|exact Ef]|];
        cbn [snd]; rewrite Hr; eapply series_frame_filter; exact Ef
    end.
  - unfold commodity_frames, bind, lift, ret. intros H. run_binds' H.
    inversion H; subst; clear H.
    lazymatch goal with
    | Ei : dict_get raw (lit "name") (JStr (lit "")) = Ok ?info,
      Et : dict_get raw (lit "data") (JArr []) = Ok ?ts,
      Eh : generate_hash_id _ _ _ = Ok ?h,
      Ep : iter_json ?ts = Ok ?pts,
      Em : mapM (commodity_point _ ?h) ?pts ?w1 = (Ok ?rs, ?w2),
      En : normalize_dates _ (frame ?rs) ?w2 = (Ok ?t0, ?w3),
      Ed : drop_incomplete _ _ _ = _ |- _ =>
        destruct (drop_incomplete_ok _ _ _ _ _ Ed) as [-> Hr];
        exists info, ts, pts, h, t0;
        split; [first [exact Ei|reflexivity]|]; split; [first [exact Eh|reflexivity]|]; split; [first [exact Et|reflexivity]|]; split; [first [exact Ep|reflexivity]|];
        split; [exact (commodity_rows _ _ _ _ _ _ _ _ _ Em En)|];
        cbn [snd]; rewrite Hr;
        eapply normalized_frame_filter; [|exact En];
        eapply mapM_forall; [|exact Em]; intros x w4 y w5; apply commodity_point_id
    end.
Qed.

Lemma transform_drops_incomplete_rows_witness :
  let run := stock_frames decimal_float iso_date ex_stock_bad_open empty_world in
  exists md sym ents h t0,
    dict_get ex_stock_bad_open "Meta Data" JNull = Ok md /\ dict_get md "2. Symbol" JNull = Ok sym
    /\ generate_hash_id src_av "stock" [sym] = Ok h
    /\ dict_get ex_stock_bad_open "Time Series (Daily)" JNull = Ok (JObj ents)
    /\ Forall2 (fun kv r => get_cell "instrument_id" r = CStr h
                  /\ conv_date iso_date (CStr (fst kv)) = Ok (get_cell "date" r)
                  /\ forall f, In f ohlcv_fields -> exists x, dict_get (snd kv) (snd f) JNull = Ok x
                        /\ get_cell (fst f) r = cell_of_float (float_val decimal_float x)) ents (rows t0)
    /\ rows (snd (result_default (frame [], frame []) (fst run)))
       = filter (complete (lit "instrument_id" :: lit "date" :: stock_value_cols)) (rows t0).
Proof.
  intros run.
  apply (proj1 (transform_drops_incomplete_rows decimal_float iso_date ex_stock_bad_open empty_world
                  (result_default (frame [], frame []) (fst run)) (snd run))).
  subst run. vm_compute. reflexivity.
Defined.

(** C6 counterexample: a stock data point whose open price is ["abc"]
    while high, low, close and volume convert is dropped: the time-series
    frame the stock transformer passes on has no row, and the only
    conversion warning logged is the one for ["abc"]. *)
Lemma transform_stock_one_bad_value_drops_row :
  match fst (stock_frames decimal_float iso_date ex_stock_bad_open empty_world) with
  | Ok fr => rows (snd fr) = []
  | Err _ => False
  end
  /\ log (snd (stock_frames decimal_float iso_date ex_stock_bad_open empty_world)) = [LogFloat (JStr "abc")].
Proof. split; vm_compute; reflexivity. Defined.

(** ** Unparsable dates *)

Lemma keeps_ret {A} (a : A) : keeps_files (ret a).
Proof. intros w r w' H. now inversion H. Qed.

Lemma keeps_lift {A} (x : result A) : keeps_files (lift x).
Proof. intros w r w' H. now inversion H. Qed.

Lemma keeps_warn e : keeps_files (warn e).
Proof. intros w r w' H. now inversion H. Qed.

Lemma keeps_raise {A} e : keeps_files (@raise A e).
Proof. intros w r w' H. now inversion H. Qed.

Lemma keeps_bind {A B} (m : M A) (k : A -> M B) :
  keeps_files m -> (forall a, keeps_files (k a)) -> keeps_files (bind m k).
Proof.
  intros Hm Hk w r w' H. unfold bind in H.
  destruct (m w) as [[a|e] w1] eqn:E.
  - rewrite (Hk a _ _ _ H). exact (Hm _ _ _ E).
  - inversion H; subst. exact (Hm _ _ _ E).
Qed.

Lemma keeps_mapM {A B} (f : A -> M B) l :
  (forall x, keeps_files (f x)) -> keeps_files (mapM f l).
Proof.
  intros Hf. induction l as [|x l IH]; cbn [mapM].
  - apply keeps_ret.
  - apply keeps_bind; [apply Hf|intros y]. apply keeps_bind; [exact IH|intros ys]. apply keeps_ret.
Qed.

Ltac keeps :=
  repeat (cbv zeta;
          first [ apply keeps_ret | apply keeps_lift | apply keeps_warn | apply keeps_raise
                | apply keeps_bind; [|intros ?]
                | apply keeps_mapM; intros ?
                | match goal with |- keeps_files (match ?x with _ => _ end) => destruct x end ]).

Lemma keeps_to_float pf v : keeps_files (to_float pf v).
Proof. unfold to_float. destruct v; keeps. Qed.

Lemma keeps_normalize_dates pd t : keeps_files (normalize_dates pd t).
Proof. unfold normalize_dates. destruct (frame_empty t); keeps. Qed.

Lemma keeps_drop_incomplete subset t : keeps_files (drop_incomplete subset t).
Proof. unfold drop_incomplete. destruct (frame_empty t); keeps. Qed.

Lemma keeps_series_point pf fields h kv : keeps_files (series_point pf fields h kv).
Proof. destruct kv as [k v]. unfold series_point. keeps. apply keeps_to_float. Qed.

Lemma keeps_series_frame pf pd fields h entries : keeps_files (series_frame pf pd fields h entries).
Proof.
  unfold series_frame. apply keeps_bind; [|intros; apply keeps_normalize_dates].
  apply keeps_mapM. intros; apply keeps_series_point.
Qed.

Lemma keeps_commodity_point pf h x : keeps_files (commodity_point pf h x).
Proof. unfold commodity_point. keeps. apply keeps_to_float. Qed.

Lemma keeps_frames pf pd raw :
  keeps_files (stock_frames pf pd raw) /\ keeps_files (forex_frames pf pd raw)
  /\ keeps_files (crypto_frames pf pd raw) /\ keeps_files (commodity_frames pf pd raw).
Proof.
  split; [|split; [|split]];
    [unfold stock_frames|unfold forex_frames|unfold crypto_frames|unfold commodity_frames]; keeps;
    first [ apply keeps_to_float | apply keeps_series_point | apply keeps_series_frame | apply keeps_drop_incomplete
          | apply keeps_normalize_dates | apply keeps_commodity_point ].
Qed.

Lemma mapM_in {A B} (f : A -> M B) l w ys w' x :
  mapM f l w = (Ok ys, w') -> In x l -> exists y w0 w0', In y ys /\ f x w0 = (Ok y, w0').
Proof.
  revert w ys. induction l as [|x' l IH]; intros w ys H Hx; [destruct Hx|].
  cbn [mapM] in H; unfold bind, ret in H.
  destruct (f x' w) as [[y|e] w1] eqn:E1; [|discriminate].
  destruct (mapM f l w1) as [[ys'|e] w2] eqn:E2; [|discriminate].
  inversion H; subst. destruct Hx as [<-|Hx].
  - exists y, w, w1. split; [now left|exact E1].
  - destruct (IH _ _ E2 Hx) as [y' [w0 [w0' [Hy Hf]]]].
    exists y', w0, w0'. split; [now right|exact Hf].
Qed.

Lemma series_point_date pf fields h k v w r w' :
  series_point pf fields h (k, v) w = (Ok r, w') -> get_cell "date" r = CStr k.
Proof.
  unfold series_point, bind, ret.
  destruct (mapM _ fields w) as [[cells|e] w1]; intros H; inversion H; subst. reflexivity.
Qed.

Lemma commodity_point_date pf h p d w r w' :
  dict_get p "date" JNull = Ok d ->
  commodity_point pf h p w = (Ok r, w') -> get_cell "date" r = cell_of_json d.
Proof.
  intros Hd H. unfold commodity_point, bind, ret, lift in H. rewrite Hd in H. run_binds' H.
  all: inversion H; subst; reflexivity.
Qed.

Lemma conv_rows_fail pd rs y rs' :
  In y rs -> conv_date pd (get_cell "date" y) = Err DateParseError -> conv_rows pd rs = Ok rs' -> False.
Proof.
  intros Hy Hc. revert rs'. induction rs as [|r rs IH]; intros rs' H; [destruct Hy|].
  cbn [conv_rows] in H.
  destruct (conv_date pd (get_cell "date" r)) eqn:E1; [|destruct (conv_rows pd rs); discriminate].
  destruct (conv_rows pd rs) as [t|e] eqn:E2; [|discriminate].
  destruct Hy as [<-|Hy]; [congruence|exact (IH Hy t eq_refl)].
Qed.

Lemma normalize_bad_date pd rs y t w w' :
  In y rs -> In (lit "instrument_id") (map fst y) ->
  conv_date pd (get_cell "date" y) = Err DateParseError ->
  normalize_dates pd (frame rs) w = (Ok t, w') -> False.
Proof.
  intros Hy Hid Hc H. unfold normalize_dates in H.
  assert (Hne : frame_empty (frame rs) = false).
  { destruct rs as [|r0 rs0]; [destruct Hy|]. unfold frame_empty.
    destruct (columns (frame (r0 :: rs0))) eqn:C; [|reflexivity].
    exfalso. pose proof (frame_cols _ y _ Hy Hid) as Hin. rewrite C in Hin. exact Hin. }
  rewrite Hne in H. unfold lift, to_datetime_col in H.
  destruct (conv_rows pd (rows (frame rs))) eqn:E; [|discriminate].
  eapply conv_rows_fail; [exact Hy|exact Hc|exact E].
Qed.

Lemma series_frame_bad_date pf pd fields h entries k v w t w' :
  In (k, v) entries -> pd (CStr k) = None ->
  series_frame pf pd fields h entries w = (Ok t, w') -> False.
Proof.
  intros Hin Hpd H. unfold series_frame, bind in H.
  destruct (mapM (series_point pf fields h) entries w) as [[rs|e] w1] eqn:E; [|discriminate].
  destruct (mapM_in _ _ _ _ _ _ E Hin) as [y [w0 [w0' [Hy Hs]]]].
  eapply normalize_bad_date; [exact Hy|eapply series_point_id; exact Hs| |exact H].
  rewrite (series_point_date _ _ _ _ _ _ _ _ Hs). cbn [conv_date]. now rewrite Hpd.
Qed.

Lemma conv_date_unparsable pd d :
  d <> JNull -> pd (cell_of_json d) = None -> conv_date pd (cell_of_json d) = Err DateParseError.
Proof. intros Hn Hpd. destruct d; try congruence; cbn [conv_date cell_of_json] in *; now rewrite Hpd. Qed.

Lemma transform_fails_keeps_files {A} (frames : M (table * table)) (rest : table * table -> M A) w e w1 :
  keeps_files frames -> frames w = (Err e, w1) ->
  bind frames rest w = (Err e, w1) /\ files w1 = files w.
Proof. intros K H. unfold bind. rewrite H. split; [reflexivity|exact (K _ _ _ H)]. Qed.

(** C7 (amended): a data point whose date cannot be parsed does not just
    lose its row: the date conversion raises, so the whole transformer
    fails and no store is written (only warnings may be logged). This
    holds for the stock, forex and crypto transformers, where the date is
    the key of a time-series entry, and for the commodity transformer,
    where it is the non-null ["date"] field of a data point. *)
Theorem transform_unparsable_date_fails pf pd raw w :
  (forall kv k v, dict_get raw "Time Series (Daily)" JNull = Ok (JObj kv) -> In (k, v) kv ->
     pd (CStr k) = None ->
     exists e w1, transform_stock pf pd raw w = (Err e, w1) /\ files w1 = files w)
  /\ (forall kv k v, dict_get raw "Time Series FX (Daily)" JNull = Ok (JObj kv) -> In (k, v) kv ->
     pd (CStr k) = None ->
     exists e w1, transform_forex pf pd raw w = (Err e, w1) /\ files w1 = files w)
  /\ (forall kv k v, dict_get raw "Time Series (Digital Currency Daily)" (JObj []) = Ok (JObj kv) ->
     In (k, v) kv -> pd (CStr k) = None ->
     exists e w1, transform_crypto pf pd raw w = (Err e, w1) /\ files w1 = files w)
  /\ (forall pts p d, dict_get raw "data" (JArr []) = Ok (JArr pts) -> In p pts ->
     dict_get p "date" JNull = Ok d -> d <> JNull -> pd (cell_of_json d) = None ->
     exists e w1, transform_commodity pf pd raw w = (Err e, w1) /\ files w1 = files w).
Proof.
  destruct (keeps_frames pf pd raw) as [Ks [Kf [Kc Km]]].
  split; [|split; [|split]].
  - intros kv k v Hts Hin Hpd.
    destruct (stock_frames pf pd raw w) as [[fr|e] w1] eqn:S.
    + exfalso. unfold stock_frames, bind, lift, ret, warn, raise in S. rewrite Hts in S. run_binds' S.
      match goal with
      | Ei : items (JObj kv) = Ok ?a, Es : series_frame _ _ _ _ ?a _ = _ |- _ =>
          cbn [items] in Ei; injection Ei as <-;
          exact (series_frame_bad_date _ _ _ _ _ _ _ _ _ _ Hin Hpd Es)
      end.
    + exists e, w1. exact (transform_fails_keeps_files _ _ _ _ _ Ks S).
  - intros kv k v Hts Hin Hpd.
    destruct (forex_frames pf pd raw w) as [[fr|e] w1] eqn:S.
    + exfalso. unfold forex_frames, bind, lift, ret, warn, raise in S. rewrite Hts in S. run_binds' S.
      match goal with
      | Ei : items (JObj kv) = Ok ?a, Es : series_frame _ _ _ _ ?a _ = _ |- _ =>
          cbn [items] in Ei; injection Ei as <-;
          exact (series_frame_bad_date _ _ _ _ _ _ _ _ _ _ Hin Hpd Es)
      end.
    + exists e, w1. exact (transform_fails_keeps_files _ _ _ _ _ Kf S).
  - intros kv k v Hts Hin Hpd.
    destruct (crypto_frames pf pd raw w) as [[fr|e] w1] eqn:S.
    + exfalso. unfold crypto_frames, bind, lift, ret in S. rewrite Hts in S. run_binds' S.
      match goal with
      | Ei : items (JObj kv) = Ok ?a, Es : series_frame _ _ _ _ ?a _ = _ |- _ =>
          cbn [items] in Ei; injection Ei as <-;
          exact (series_frame_bad_date _ _ _ _ _ _ _ _ _ _ Hin Hpd Es)
      end.
    + exists e, w1. exact (transform_fails_keeps_files _ _ _ _ _ Kc S).
  - intros pts p d Hts Hin Hd Hnn Hpd.
    destruct (commodity_frames pf pd raw w) as [[fr|e] w1] eqn:S.
    + exfalso. unfold commodity_frames, bind, lift, ret in S. rewrite Hts in S. run_binds' S.
      match goal with
      | Ei : iter_json (JArr pts) = Ok ?a, Em : mapM _ ?a _ = (Ok ?rs, _),
        En : normalize_dates _ (frame ?rs) _ = _ |- _ =>
          cbn [iter_json] in Ei; injection Ei as <-;
          destruct (mapM_in _ _ _ _ _ _ Em Hin) as [y [w4 [w5 [Hy Hp]]]];
          eapply normalize_bad_date; [exact Hy|eapply commodity_point_id; exact Hp| |exact En];
          rewrite (commodity_point_date _ _ _ _ _ _ _ Hd Hp);
          exact (conv_date_unparsable _ _ Hnn Hpd)
      end.
    + exists e, w1. exact (transform_fails_keeps_files _ _ _ _ _ Km S).
Qed.

Lemma transform_unparsable_date_fails_witness :
  exists e w1, transform_stock decimal_float iso_date ex_stock_bad_date empty_world = (Err e, w1)
               /\ files w1 = files empty_world.
Proof.
  apply (proj1 (transform_unparsable_date_fails decimal_float iso_date ex_stock_bad_date empty_world)
           [(lit "2024-01-31", JObj [(lit "1. open", JStr "1"); (lit "2. high", JStr "2");
                                     (lit "3. low", JStr "1"); (lit "4. close", JStr "2");
                                     (lit "5. volume", JStr "100")]);
            (lit "not-a-date", JObj [(lit "1. open", JStr "1"); (lit "2. high", JStr "2");
                                     (lit "3. low", JStr "1"); (lit "4. close", JStr "2");
                                     (lit "5. volume", JStr "100")])]
           "not-a-date"
           (JObj [(lit "1. open", JStr "1"); (lit "2. high", JStr "2");
                  (lit "3. low", JStr "1"); (lit "4. close", JStr "2");
                  (lit "5. volume", JStr "100")])).
  - vm_compute. reflexivity.
  - right. left. reflexivity.
  - vm_compute. reflexivity.
Defined.

(** C7 counterexample: a stock payload with the dates ["2024-01-31"] and
    ["not-a-date"] makes [transform_stock] raise; nothing is written, not
    even the row of the parsable date. *)
Lemma transform_stock_bad_date_fails_file :
  transform_stock decimal_float iso_date ex_stock_bad_date empty_world
  = (Err DateParseError, empty_world).
Proof. vm_compute. reflexivity. Defined.

(** ** The commodity placeholder *)

(** C8: a commodity data point whose value is the string ["."] gets a
    missing price without calling [_to_float]: the row is built and the
    world, its warning log included, is left unchanged. *)
Theorem commodity_point_placeholder pf h p w :
  dict_get p "value" JNull = Ok (JStr ".") ->
  exists d, dict_get p "date" JNull = Ok d /\
    commodity_point pf h p w
    = (Ok [(lit "instrument_id", CStr h); (lit "date", cell_of_json d); (lit "price", CNull)], w).
Proof.
  intros H. destruct p as [| | | | |kv]; try discriminate.
  unfold commodity_point, bind, lift, ret. rewrite H. cbn beta iota.
  exists (match assoc "date" kv with Some x => x | None => JNull end). split; reflexivity.
Qed.

Lemma commodity_point_placeholder_witness :
  exists d, dict_get (JObj [(lit "date", JStr "2024-01-31"); (lit "value", JStr ".")]) "date" JNull = Ok d /\
    commodity_point decimal_float "h" (JObj [(lit "date", JStr "2024-01-31"); (lit "value", JStr ".")]) empty_world
    = (Ok [(lit "instrument_id", CStr "h"); (lit "date", cell_of_json d); (lit "price", CNull)], empty_world).
Proof. apply commodity_point_placeholder. vm_compute. reflexivity. Defined.

(** ** Cleaning the financial statements *)





(** Of two statement rows with ten line items, the one with seven line
    items (70%) missing is kept, and its missing [i4] is filled with the
    mean 4 of that column. *)
Lemma clean_financials_keeps_70pct_missing :
  match clean_financials iso_date ex_fin_rows with
  | Ok t =>
      length (rows t) = 2%nat /\
      match get_cell "i4" (nth 1 (rows t) []) with CNum q => Qeq_bool q 4 = true | _ => False end
  | Err _ => False
  end.
Proof. vm_compute. split; reflexivity. Qed.

(** C9 (counterexample): the threshold [int(0.4 * 13) = 5] counts the
    [instrument_id], [symbol] and [date] columns, so a row with eight of
    its ten line items missing (8 of its 13 cells, more than 60%) still
    has 5 non-missing cells and is kept; its missing [i3] is filled with
    the mean 4 of that column. *)
Lemma clean_financials_keeps_80pct_missing :
  map missing_items ex_fin_sparse = [0; 7; 8]%nat /\
  match clean_financials iso_date ex_fin_sparse with
  | Ok t =>
      length (rows t) = 3%nat /\
      match get_cell "i3" (nth 2 (rows t) []) with CNum q => Qeq_bool q 4 = true | _ => False end
  | Err _ => False
  end.
Proof. vm_compute. repeat split. Qed.

(** ** The crypto currency code *)

Lemma py_or_str_empty nm : py_or (JStr nm) (JStr "") = JStr nm.
Proof.
  unfold py_or, truthy. destruct nm as [[|c l]]; reflexivity.
Qed.

(** C10: when the metadata has no ["2. Digital Currency Code"] (absent
    or [null]) and ["3. Digital Currency Name"] is the string [nm], the
    crypto instrument row has [currency_code] [nm] and its [instrument_id]
    is the hash over [nm] and the market code. So the same currency, given
    once by its code ["BTC"] and once by its name ["Bitcoin"], gets two
    different instrument ids. *)
Theorem crypto_currency_code_fallback pf pd :
  (forall raw mkv nm w fr w',
     dict_get raw "Meta Data" (JObj []) = Ok (JObj mkv) ->
     (assoc "2. Digital Currency Code" mkv = None
      \/ assoc "2. Digital Currency Code" mkv = Some JNull) ->
     assoc "3. Digital Currency Name" mkv = Some (JStr nm) ->
     crypto_frames pf pd raw w = (Ok fr, w') ->
     exists h r,
       generate_hash_id src_av "cryptocurrency"
         [JStr nm; py_or (match assoc "4. Market Code" mkv with Some v => v | None => JNull end)
                         (JStr "")] = Ok h
       /\ rows (fst fr) = [r]
       /\ get_cell "instrument_id" r = CStr h
       /\ get_cell "currency_code" r = CStr nm)
  /\ match fst (crypto_frames pf pd ex_crypto_code empty_world),
           fst (crypto_frames pf pd ex_crypto_name empty_world) with
     | Ok f1, Ok f2 =>
         get_cell "instrument_id" (hd [] (rows (fst f1)))
         <> get_cell "instrument_id" (hd [] (rows (fst f2)))
     | _, _ => False
     end.
Proof.
  split.
  - intros raw mkv nm w fr w' Hm Hc Hn H.
    unfold crypto_frames, bind, lift in H. rewrite Hm in H.
    unfold dict_get at 2 3 in H. rewrite Hn in H.
    assert (Hcode : (match assoc "2. Digital Currency Code" mkv with Some v => v | None => JNull end) = JNull)
      by (destruct Hc as [-> | ->]; reflexivity).
    rewrite Hcode in H. cbn beta iota in H.
    replace (py_or JNull (JStr nm)) with (JStr nm) in H by reflexivity.
    rewrite py_or_str_empty in H. run_binds' H.
    unfold dict_get in E0. inversion E0; subst.
    unfold ret in H. inversion H; subst. cbn [fst rows frame].
    exists a2. eexists. split; [exact E2|]. split; [reflexivity|]. split; reflexivity.
  - vm_compute. discriminate.
Qed.

Lemma crypto_currency_code_fallback_witness :
  exists h r,
    generate_hash_id src_av "cryptocurrency" [JStr "Bitcoin"; JStr "USD"] = Ok h
    /\ rows (fst (result_default (frame [], frame [])
                  (fst (crypto_frames decimal_float iso_date ex_crypto_name empty_world)))) = [r]
    /\ get_cell "instrument_id" r = CStr h
    /\ get_cell "currency_code" r = CStr "Bitcoin".
Proof.
  apply (proj1 (crypto_currency_code_fallback decimal_float iso_date)
           ex_crypto_name [(lit "3. Digital Currency Name", JStr "Bitcoin"); (lit "4. Market Code", JStr "USD")]
           "Bitcoin" empty_world
           (result_default (frame [], frame [])
              (fst (crypto_frames decimal_float iso_date ex_crypto_name empty_world)))
           (snd (crypto_frames decimal_float iso_date ex_crypto_name empty_world))).
  - reflexivity.
  - left. reflexivity.
  - reflexivity.
  - vm_compute. reflexivity.
Defined.

(* ------------------------------------------------------------------ *)
(** ** Further properties of the transform layer *)

(** Like [run_binds'], but always splits an innermost [match] first. *)
Ltac inner_binds H :=
  repeat (cbn beta iota in H;
          match type of H with
          | context [match ?x with _ => _ end] =>
              lazymatch x with
              | context [match _ with _ => _ end] => fail
              | _ => let E := fresh "E" in destruct x eqn:E; try discriminate H
              end
          end).

Lemma conv_rows_err pd rs e : conv_rows pd rs = Err e -> e = DateParseError.
Proof.
  induction rs as [|r rs IH]; cbn [conv_rows]; [discriminate|].
  unfold conv_date. destruct (get_cell "date" r); try (destruct (pd _));
  destruct (conv_rows pd rs); intros H; inversion H; subst; auto.
Qed.

Lemma read_csv_err f e : read_csv f = Err e -> e = EmptyDataError.
Proof. unfold read_csv. destruct (columns f); intros H; inversion H; reflexivity. Qed.

Lemma drop_duplicates_err subset t e : drop_duplicates subset t = Err e -> e = KeyError \/ e = TypeError.
Proof.
  unfold drop_duplicates. destruct (frame_empty t); [discriminate|].
  destruct (negb _); [intros H; inversion H; now left|].
  destruct (existsb _ _); intros H; inversion H; now right.
Qed.

Lemma to_datetime_col_err pd t e : to_datetime_col pd t = Err e -> e = DateParseError.
Proof.
  unfold to_datetime_col. destruct (conv_rows pd (rows t)) eqn:C; intros H; inversion H; subst.
  eapply conv_rows_err; exact C.
Qed.

Lemma write_csv_cases p t w r w' :
  write_csv p t w = (r, w') ->
  (r = Ok tt /\ csv_encodable t = true /\ w' = World (file_set p (to_csv t) (files w)) (log w))
  \/ (r = Err UnicodeEncodeError /\ csv_encodable t = false
      /\ w' = World (file_set p (partial_csv t) (files w)) (log w)).
Proof.
  unfold write_csv. destruct (csv_encodable t); intros H; inversion H; subst; [left|right]; auto.
Qed.

(** The three outcomes of [_upsert_csv]: an error before writing, which
    changes nothing; a written table; or a table [to_csv] fails on. *)
Lemma upsert_csv_cases pd df path subset w r w' :
  upsert_csv pd df path subset w = (r, w') ->
  (exists e, r = Err e /\ e <> UnicodeEncodeError /\ w' = w)
  \/ (exists t, r = Ok tt /\ csv_encodable t = true
                /\ w' = World (file_set path (to_csv t) (files w)) (log w))
  \/ (exists t, r = Err UnicodeEncodeError /\ csv_encodable t = false
                /\ w' = World (file_set path (partial_csv t) (files w)) (log w)).
Proof.
  intros H. unfold upsert_csv, bind, get_file, lift, ret in H. cbn beta iota in H.
  assert (Hw : forall t, write_csv path t w = (r, w') ->
     (exists e, r = Err e /\ e <> UnicodeEncodeError /\ w' = w)
     \/ (exists t, r = Ok tt /\ csv_encodable t = true
                   /\ w' = World (file_set path (to_csv t) (files w)) (log w))
     \/ (exists t, r = Err UnicodeEncodeError /\ csv_encodable t = false
                   /\ w' = World (file_set path (partial_csv t) (files w)) (log w)))
    by (intros t Ht; apply write_csv_cases in Ht as [[-> [He ->]]|[-> [He ->]]];
        [right; left|right; right]; exists t; auto).
  destruct (file_lookup path (files w)) as [f|]; [|exact (Hw df H)].
  destruct (read_csv f) as [prev|e] eqn:Er.
  2:{ inversion H; subst. apply read_csv_err in Er; subst. left. exists EmptyDataError. split; [reflexivity|]. split; [discriminate|reflexivity]. }
  destruct (memb "date" (columns prev)).
  - destruct (to_datetime_col pd prev) as [prev'|e] eqn:Et.
    2:{ inversion H; subst. apply to_datetime_col_err in Et; subst. left. exists DateParseError.
        split; [reflexivity|]. split; [discriminate|reflexivity]. }
    destruct (drop_duplicates subset (concat prev' df)) as [out|e] eqn:Ed; [exact (Hw out H)|].
    inversion H; subst. left. exists e. split; [reflexivity|]. split; [|reflexivity].
    apply drop_duplicates_err in Ed as [->| ->]; discriminate.
  - destruct (drop_duplicates subset (concat prev df)) as [out|e] eqn:Ed; [exact (Hw out H)|].
    inversion H; subst. left. exists e. split; [reflexivity|]. split; [|reflexivity].
    apply drop_duplicates_err in Ed as [->| ->]; discriminate.
Qed.


Lemma not_all_subset_cols subset c a b :
  In c subset -> ~ In c a -> ~ In c b ->
  forallb (fun c1 => memb c1 (col_union a b)) subset = false.
Proof.
  intros Hs Ha Hb. apply Bool.not_true_iff_false. rewrite forallb_forall. intros Hall.
  specialize (Hall c Hs). apply memb_In in Hall. unfold col_union in Hall.
  apply in_app_or in Hall. destruct Hall as [Hall|Hall]; [tauto|].
  apply filter_In in Hall. tauto.
Qed.

Lemma read_csv_shape f :
  columns f <> [] ->
  exists rs, read_csv f = Ok (Table (columns f) rs) /\ length rs = length (rows f).
Proof.
  intros H. unfold read_csv. destruct (columns f) eqn:C; [congruence|].
  eexists; split; [reflexivity|]. now rewrite length_map, length_seq.
Qed.

(** A key column that neither the stored file nor the new frame has makes [Transform._upsert_csv] fail without writing, once the stored file or the new frame has a row: the pandas [drop_duplicates] raises [KeyError] (unless reading or converting the stored file fails first). *)
Theorem upsert_csv_missing_key pd df path subset w f c :
  file_lookup path (files w) = Some f ->
  In c subset -> ~ In c (columns f) -> ~ In c (columns df) ->
  rows f <> [] \/ rows df <> [] ->
  upsert_csv pd df path subset w = (Err KeyError, w)
  \/ upsert_csv pd df path subset w = (Err DateParseError, w)
  \/ upsert_csv pd df path subset w = (Err EmptyDataError, w).
Proof.
  intros F Hs Hf Hd Hne. unfold upsert_csv, bind, get_file, lift, ret. cbn beta iota. rewrite F.
  destruct (columns f) as [|c0 cs] eqn:Cf.
  { right; right. unfold read_csv. now rewrite Cf. }
  destruct (read_csv_shape f) as [rs [R Hl]]; [congruence|]. rewrite R. cbn [columns].
  assert (Hdd : forall rs', length rs' = length (rows f) ->
            drop_duplicates subset (concat (Table (columns f) rs') df) = Err KeyError).
  { intros rs' Hl'. unfold drop_duplicates, concat. cbn [columns rows].
    replace (frame_empty _) with false.
    - rewrite <- Cf in Hf. now rewrite (not_all_subset_cols subset c (columns f) (columns df)).
    - unfold frame_empty. cbn [columns rows]. rewrite Cf. cbn [col_union app].
      destruct (rs' ++ rows df) eqn:Ra; [|reflexivity].
      apply app_eq_nil in Ra as [-> Rd]. destruct (rows f); [|discriminate].
      destruct Hne as [Hn|Hn]; congruence. }
  destruct (memb "date" (columns f)).
  - unfold to_datetime_col. cbn [rows columns].
    destruct (conv_rows pd rs) as [rs1|e] eqn:C.
    + left. rewrite Hdd; [reflexivity|]. apply conv_rows_length in C. congruence.
    + apply conv_rows_err in C. subst. right; left. reflexivity.
  - left. now rewrite Hdd.
Qed.

(** The stock, forex, commodity and exchange-rate transformers fail with [TypeError], writing nothing, when an identifying field passed to [generate_hash_id] is not a string (a missing stock symbol is [None]). *)
Theorem transform_non_string_identity pf pd raw w :
  (forall mkv ts,
     dict_get raw "Meta Data" JNull = Ok (JObj mkv) ->
     dict_get raw "Time Series (Daily)" JNull = Ok ts -> ts <> JNull ->
     not_str (match assoc "2. Symbol" mkv with Some v => v | None => JNull end) ->
     transform_stock pf pd raw w = (Err TypeError, w))
  /\ (forall mkv ts,
     dict_get raw "Meta Data" JNull = Ok (JObj mkv) ->
     dict_get raw "Time Series FX (Daily)" JNull = Ok ts -> ts <> JNull ->
     not_str (match assoc "2. From Symbol" mkv with Some v => v | None => JNull end)
     \/ not_str (match assoc "3. To Symbol" mkv with Some v => v | None => JNull end) ->
     transform_forex pf pd raw w = (Err TypeError, w))
  /\ (forall kv v,
     raw = JObj kv -> assoc "name" kv = Some v -> not_str v ->
     transform_commodity pf pd raw w = (Err TypeError, w))
  /\ (forall bkv,
     dict_get raw "Realtime Currency Exchange Rate" JNull = Ok (JObj bkv) ->
     not_str (match assoc "1. From_Currency Code" bkv with Some v => v | None => JStr "" end)
     \/ not_str (match assoc "3. To_Currency Code" bkv with Some v => v | None => JStr "" end) ->
     transform_exchange_rate pf pd raw w = (Err TypeError, w)).
Proof.
  split; [|split; [|split]].
  - intros mkv ts Hm Ht Hn Hs. unfold transform_stock, stock_frames, bind, lift.
    rewrite Hm, Ht. destruct ts; try congruence; cbn beta iota;
    unfold dict_get at 1 2, generate_hash_id, str_args;
    destruct (assoc "2. Symbol" mkv) as [[]|]; cbn in Hs |- *; tauto.
  - intros mkv ts Hm Ht Hn Hs. unfold transform_forex, forex_frames, bind, lift.
    rewrite Hm, Ht. destruct ts; try congruence; cbn beta iota;
    unfold dict_get at 1 2, str_plus;
    destruct (assoc "2. From Symbol" mkv) as [[]|], (assoc "3. To Symbol" mkv) as [[]|];
    cbn in Hs |- *; tauto.
  - intros kv v -> Hv Hs. unfold transform_commodity, commodity_frames, bind, lift.
    unfold dict_get at 2. rewrite Hv. cbn beta iota.
    unfold generate_hash_id, str_args. destruct v; cbn in Hs |- *; tauto.
  - intros bkv Hb Hs. unfold transform_exchange_rate, bind, lift. rewrite Hb. cbn beta iota.
    unfold dict_get at 1 2, generate_hash_id, str_args.
    destruct (assoc "1. From_Currency Code" bkv) as [[]|], (assoc "3. To_Currency Code" bkv) as [[]|];
    cbn in Hs |- *; tauto.
Qed.

Lemma mapM_length {A B} (f : A -> M B) l w ys w' :
  mapM f l w = (Ok ys, w') -> length ys = length l.
Proof.
  revert w ys. induction l as [|x l IH]; intros w ys H; cbn [mapM] in H.
  - unfold ret in H. now inversion H.
  - unfold bind at 1 in H. destruct (f x w) as [[y|e] w1]; [|discriminate].
    unfold bind in H. destruct (mapM f l w1) as [[ys'|e] w2] eqn:E; [|discriminate].
    unfold ret in H. inversion H; subst. cbn. f_equal. eapply IH; eauto.
Qed.

(** The time-series frame [Transform.transform_crypto] builds has one row per entry of the payload's time series, unparsable values included. *)
Theorem crypto_frames_keeps_every_entry pf pd raw kv w fr w' :
  dict_get raw "Time Series (Digital Currency Daily)" (JObj []) = Ok (JObj kv) ->
  crypto_frames pf pd raw w = (Ok fr, w') ->
  length (rows (snd fr)) = length kv.
Proof.
  intros Ht H. unfold crypto_frames, bind, lift in H. rewrite Ht in H.
  run_binds' H. unfold ret in H. inversion H; subst; clear H. cbn [snd].
  cbn [items] in *. match goal with E : Ok _ = Ok _ |- _ => inversion E; subst end.
  unfold series_frame, bind in *.
  match goal with E : (let (_, _) := mapM ?f ?l ?w in _) = _ |- _ =>
    destruct (mapM f l w) as [[ts|e] w2] eqn:Em; [|discriminate] end.
  match goal with E : normalize_dates _ _ _ = _ |- _ =>
    apply normalize_dates_ok in E; destruct E as [_ [_ [Hl _]]] end.
  rewrite Hl. cbn [rows frame]. eapply mapM_length; eauto.
Qed.

Lemma dispatch_unknown pf pd folder n raw :
  ~ In folder known_folders ->
  dispatch pf pd folder n raw = warn (LogWarn ("Unknown folder: " ++ folder ++ ", skipping file: " ++ n)).
Proof.
  intros H. unfold dispatch.
  repeat match goal with |- context [String.eqb ?a ?b] =>
    destruct (String.eqb_spec a b); [subst; exfalso; apply H; cbn; tauto|] end.
  reflexivity.
Qed.

(** For a folder name [Transform.transform] does not know, the loop writes no file and, when every JSON file loads, adds exactly one warning per JSON file to the warning log. *)
Theorem transform_folder_unknown pf pd folder fs :
  ~ In folder known_folders ->
  keeps_files (transform_folder pf pd folder fs)
  /\ forall w,
       (forall n c, In (n, c) fs -> ends_with ".json" n = true -> exists j, c = Ok j) ->
       transform_folder pf pd folder fs w
       = (Ok tt, World (files w)
                   (log w ++ map (fun n => LogWarn ("Unknown folder: " ++ folder ++ ", skipping file: " ++ n))
                                 (filter (ends_with ".json") (map fst fs)))).
Proof.
  intros Hf. split.
  - induction fs as [|[n c] fs IH]; cbn [transform_folder]; [apply keeps_ret|].
    apply keeps_bind; [|intros; exact IH].
    destruct (ends_with ".json" n); [|apply keeps_ret].
    apply keeps_bind; [apply keeps_lift|intros j]. rewrite dispatch_unknown by exact Hf. apply keeps_warn.
  - induction fs as [|[n c] fs IH]; intros w Hc; cbn [transform_folder map filter fst].
    + destruct w; cbn. now rewrite app_nil_r.
    + destruct (ends_with ".json" n) eqn:J.
      * destruct (Hc n c (or_introl eq_refl) J) as [j ->].
        unfold bind at 1 2, lift. rewrite dispatch_unknown by exact Hf. unfold warn.
        rewrite IH by (intros n' c' Hin; apply Hc; now right). cbn [files log map].
        now rewrite <- app_assoc.
      * unfold bind at 1, ret. apply IH. intros n' c' Hin; apply Hc; now right.
Qed.

Lemma bind_ext {A B} (m : M A) (k k' : A -> M B) w :
  (forall a w', k a w' = k' a w') -> bind m k w = bind m k' w.
Proof. intros H. unfold bind. destruct (m w) as [[a|e] w1]; [apply H|reflexivity]. Qed.

Lemma dict_set_notin {A} k (v : A) d : ~ In k (map fst d) -> dict_set k v d = d ++ [(k, v)].
Proof.
  induction d as [|[k' v'] d IH]; intros H; cbn [dict_set app]; [reflexivity|].
  destruct (pystr_eqb k k') eqn:E.
  - apply pystr_eqb_eq in E; subst. exfalso; apply H; now left.
  - f_equal. apply IH. intros Hin; apply H; now right.
Qed.

Lemma info_fold kvs I O :
  NoDup (map fst kvs) -> (forall k, In k (map fst kvs) -> ~ In k (map fst I)) ->
  fold_left info_step kvs (I, O)
  = (I ++ filter (fun kv => negb (memb (fst kv) info_excluded)) kvs,
     match assoc "companyOfficers" kvs with Some v => v | None => O end).
Proof.
  revert I O. induction kvs as [|[k v] kvs IH]; intros I O Hn Hd; cbn [fold_left].
  - now rewrite app_nil_r.
  - inversion Hn as [|? ? Hk Hn']; subst. cbn [map fst] in *.
    unfold info_step at 2. cbn [filter fst assoc].
    destruct (pystr_eqb k "companyOfficers") eqn:Ec.
    + apply pystr_eqb_eq in Ec; subst.
      rewrite IH by (auto; intros k' Hk'; apply Hd; now right).
      rewrite (assoc_notin "companyOfficers" kvs Hk). cbn. reflexivity.
    + assert (Hc : pystr_eqb "companyOfficers" k = false).
      { apply Bool.not_true_iff_false. intros E. apply pystr_eqb_eq in E. subst.
        rewrite (proj2 (pystr_eqb_eq _ _) eq_refl) in Ec. discriminate. }
      rewrite Hc.
      destruct (negb (memb k info_excluded)) eqn:Ex.
      * rewrite dict_set_notin by (apply Hd; now left).
        rewrite IH.
        -- now rewrite <- app_assoc.
        -- exact Hn'.
        -- intros k' Hk'. rewrite map_app, in_app_iff. intros [H|H].
           ++ exact (Hd k' (or_intror Hk') H).
           ++ cbn in H. destruct H as [H|[]]. subst. contradiction.
      * rewrite IH; auto. intros k' Hk'; apply Hd; now right.
Qed.

(** On a dict without repeated keys, [Transform.info_type] returns the entries other than [sector_top_companies] and [companyOfficers] in their order, and the [companyOfficers] value, or an empty dict without one. *)
Theorem info_type_split kvs info off :
  NoDup (map fst kvs) ->
  info_type (JObj kvs) = Ok (info, off) ->
  info = filter (fun kv => negb (memb (fst kv) info_excluded)) kvs
  /\ off = match assoc "companyOfficers" kvs with Some v => v | None => JObj [] end.
Proof.
  intros Hn H. unfold info_type, items in H. rewrite info_fold in H; auto.
  inversion H; subst. split; reflexivity.
Qed.

Lemma assoc_dict_merge c d1 d2 :
  NoDup (map fst d2) ->
  assoc c (dict_merge d1 d2) = match assoc c d2 with Some v => Some v | None => assoc c d1 end.
Proof.
  unfold dict_merge. revert d1. induction d2 as [|[k v] d2 IH]; intros d1 Hn; cbn [fold_left assoc]; [reflexivity|].
  inversion Hn as [|? ? Hk Hn']; subst. cbn [fst snd] in *. rewrite IH by exact Hn'.
  destruct (pystr_eqb c k) eqn:E.
  - apply pystr_eqb_eq in E; subst. rewrite assoc_notin by exact Hk. apply assoc_dict_set.
  - destruct (assoc c d2); [reflexivity|]. apply assoc_dict_set_other.
    intros ->. rewrite (proj2 (pystr_eqb_eq _ _) eq_refl) in E. discriminate.
Qed.

Lemma assoc_json_row c kv : assoc c (json_row kv) = option_map cell_of_json (assoc c kv).
Proof.
  induction kv as [|[k v] kv IH]; cbn [json_row map assoc fst snd]; [reflexivity|].
  destruct (pystr_eqb c k); [reflexivity|exact IH].
Qed.

Lemma json_row_keys kv : map fst (json_row kv) = map fst kv.
Proof. unfold json_row. rewrite map_map. reflexivity. Qed.

(** [Transform.financial_type] succeeds exactly when every entry but [symbol] is a dict; it then yields one record per such entry, in order, whose [date] is the entry's own [date] item if it has one and the entry's key otherwise. *)
Theorem financial_type_records kv :
  ((exists recs, financial_type (JObj kv) = Ok recs)
   <-> forall p, In p kv -> fst p <> "symbol" -> exists items, snd p = JObj items)
  /\ forall recs, financial_type (JObj kv) = Ok recs ->
     Forall2 (fun p r => exists items, snd p = JObj items
                /\ (NoDup (map fst items) ->
                    get_cell "date" r = match assoc "date" items with
                                        | Some d => cell_of_json d
                                        | None => CStr (fst p)
                                        end))
             (filter (fun p => negb (pystr_eqb (fst p) "symbol")) kv) recs.
Proof.
  unfold financial_type, items. split.
  - induction kv as [|[k v] kv IH]; cbn [statement_records].
    + split; [intros _ p []|intros _; eauto].
    + destruct (pystr_eqb (fst (k, v)) "symbol") eqn:Es.
      * cbn [fst] in Es. apply pystr_eqb_eq in Es. subst. rewrite IH. split.
        -- intros H p Hp Hs. destruct Hp as [<-|Hp]; [cbn in Hs; congruence|]. now apply H.
        -- intros H p Hp Hs. apply H; [now right|exact Hs].
      * cbn [fst] in Es. split.
        -- intros [recs H] p Hp Hs. destruct Hp as [<-|Hp].
           ++ unfold statement_record in H. cbn [snd] in *. destruct v; try (destruct (statement_records kv); discriminate). eauto.
           ++ destruct (statement_record (k, v)), (statement_records kv) eqn:E; try discriminate.
              apply IH; eauto.
        -- intros H. destruct (proj2 IH (fun p Hp Hs => H p (or_intror Hp) Hs)) as [recs E].
           rewrite E. destruct (H (k, v) (or_introl eq_refl)) as [items Hi].
           { cbn. intros ->. rewrite (proj2 (pystr_eqb_eq _ _) eq_refl) in Es. discriminate. }
           cbn [snd] in Hi. subst. cbn. eauto.
  - induction kv as [|[k v] kv IH]; intros recs H; cbn [statement_records filter] in *.
    + inversion H; constructor.
    + cbn [fst] in *. destruct (pystr_eqb k "symbol") eqn:Es; cbn [negb].
      * now apply IH.
      * destruct (statement_record (k, v)) as [r|e] eqn:Er; [|discriminate].
        destruct (statement_records kv) as [rs|e] eqn:Ers; [|discriminate].
        inversion H; subst. constructor; [|now apply IH].
        unfold statement_record in Er. cbn [snd fst] in *. destruct v; try discriminate.
        inversion Er; subst. eexists; split; [reflexivity|]. intros Hn.
        unfold get_cell. rewrite assoc_dict_merge by (rewrite json_row_keys; exact Hn).
        rewrite assoc_json_row. destruct (assoc "date" kv0); reflexivity.
Qed.

Lemma statement_records_filter kv :
  statement_records (filter (fun p => negb (pystr_eqb (fst p) "symbol")) kv) = statement_records kv.
Proof.
  induction kv as [|[k v] kv IH]; cbn [filter statement_records fst]; [reflexivity|].
  destruct (pystr_eqb k "symbol") eqn:E; cbn [negb statement_records fst]; rewrite ?E, ?IH; reflexivity.
Qed.

Lemma info_symbol_set (s : pystr) (it : list (pystr * json)) :
  exists x, assoc "symbol" (match assoc "symbol" it with
                            | Some _ => it
                            | None => dict_set "symbol" (JStr s) it end) = Some x.
Proof.
  destruct (assoc "symbol" it) eqn:E; [rewrite E; eauto|]. rewrite assoc_dict_set. eauto.
Qed.

(** In the per-symbol step of [Transform.transform_yahoo_financials], the [symbol] entry of the financials file has no effect: the information table always has a symbol by then. *)
Theorem yahoo_symbol_ignores_financials_symbol s info kv :
  yahoo_symbol s info (Some (JObj kv))
  = yahoo_symbol s info (Some (JObj (filter (fun p => negb (pystr_eqb (fst p) "symbol")) kv))).
Proof.
  unfold yahoo_symbol. cbv zeta.
  destruct (match info with Some raw => info_type raw | None => Ok ([], JArr []) end) as [[it off]|e];
    [|reflexivity].
  destruct (info_symbol_set s it) as [x Hx]. rewrite Hx.
  unfold financial_symbol, financial_type, dict_get, items. rewrite statement_records_filter.
  reflexivity.
Qed.

Lemma info_type_table kvs info off :
  NoDup (map fst kvs) ->
  info_type (JObj kvs) = Ok (info, off) ->
  info = filter (fun kv => negb (memb (fst kv) info_excluded)) kvs.
Proof.
  intros Hn H. unfold info_type, items in H. rewrite info_fold in H; auto. now inversion H.
Qed.

Lemma NoDup_map_filter {A B} (g : A -> B) f l : NoDup (map g l) -> NoDup (map g (filter f l)).
Proof.
  induction l as [|x l IH]; intros H; cbn [filter map]; [constructor|].
  inversion H; subst. destruct (f x); cbn [map]; [|auto].
  constructor; [|auto]. intros Hin. apply in_map_iff in Hin. destruct Hin as [y [Hy Hy']].
  apply filter_In in Hy'. apply H2. rewrite <- Hy. now apply in_map.
Qed.

Lemma assoc_none_notin {A} k (d : list (pystr * A)) : assoc k d = None -> ~ In k (map fst d).
Proof.
  induction d as [|[k' v'] d IH]; cbn [assoc map fst]; intros H; [tauto|].
  destruct (pystr_eqb k k') eqn:E; [discriminate|]. intros [<-|Hin].
  - rewrite (proj2 (pystr_eqb_eq _ _) eq_refl) in E. discriminate.
  - exact (IH H Hin).
Qed.

Lemma assoc_filter_info (l : list (pystr * json)) :
  assoc "symbol" (filter (fun kv => negb (memb (fst kv) info_excluded)) l) = assoc "symbol" l.
Proof.
  induction l as [|[k v] l IH]; cbn [filter assoc fst]; [reflexivity|].
  destruct (memb k info_excluded) eqn:M; cbn [negb assoc].
  - rewrite IH. destruct (pystr_eqb "symbol" k) eqn:E; [|reflexivity].
    apply pystr_eqb_eq in E; subst. discriminate.
  - now rewrite IH.
Qed.

Lemma assoc_app {A} k (l1 l2 : list (pystr * A)) :
  assoc k (l1 ++ l2) = match assoc k l1 with Some v => Some v | None => assoc k l2 end.
Proof.
  induction l1 as [|[k' v'] l1 IH]; cbn [app assoc]; [reflexivity|].
  destruct (pystr_eqb k k'); [reflexivity|exact IH].
Qed.

Lemma yahoo_info_table s info it off :
  (match info with Some (JObj ikv) => NoDup (map fst ikv) | _ => True end) ->
  (match info with Some raw => info_type raw | None => Ok ([], JArr []) end) = Ok (it, off) ->
  let it1 := match assoc "symbol" it with Some _ => it | None => dict_set "symbol" (JStr s) it end in
  NoDup (map fst it1) /\ it1 <> []
  /\ assoc "symbol" it1 = Some (match info with
                               | Some (JObj ikv) => match assoc "symbol" ikv with Some v => v | None => JStr s end
                               | _ => JStr s end).
Proof.
  intros Hn H. cbv zeta.
  assert (Hit : NoDup (map fst it)
                /\ assoc "symbol" it = match info with Some (JObj ikv) => assoc "symbol" ikv | _ => None end).
  { destruct info as [[]|]; try discriminate.
    - pose proof (info_type_table _ _ _ Hn H) as ->. split.
      + now apply NoDup_map_filter.
      + apply assoc_filter_info.
    - inversion H; subst. split; [constructor|reflexivity]. }
  destruct Hit as [Hnd Hs]. rewrite Hs.
  destruct (match info with Some (JObj ikv) => assoc "symbol" ikv | _ => None end) as [v|] eqn:Ev.
  - split; [exact Hnd|]. split.
    + intros ->. cbn in Hs. discriminate.
    + rewrite Hs. destruct info as [[]|]; simpl in Ev; try discriminate. now rewrite Ev.
  - assert (Hno : ~ In (lit "symbol") (map fst it)) by (apply assoc_none_notin; now rewrite Hs).
    rewrite dict_set_notin by exact Hno. split; [|split].
    + rewrite map_app. apply NoDup_app; auto.
      * constructor; [tauto|constructor].
      * intros x Hx Hx'. destruct Hx' as [<-|[]]. contradiction.
    + destruct it; discriminate.
    + rewrite assoc_app, (assoc_notin _ _ Hno). cbn [assoc]. rewrite (proj2 (pystr_eqb_eq _ _) eq_refl).
      destruct info as [[]|]; try reflexivity. now rewrite Ev.
Qed.





(** An info file whose [symbol] is not a string makes the per-symbol step of [Transform.transform_yahoo_financials] fail with [TypeError] once the financials file has parsed. *)
Theorem yahoo_symbol_non_string_symbol s ikv v fin :
  NoDup (map fst ikv) ->
  assoc "symbol" ikv = Some v ->
  not_str v ->
  (match fin with
   | None => True
   | Some raw => (exists x, financial_symbol raw = Ok x) /\ (exists recs, financial_type raw = Ok recs)
   end) ->
  yahoo_symbol s (Some (JObj ikv)) fin = Err TypeError.
Proof.
  intros Hn Hv Hs Hfin. unfold yahoo_symbol.
  destruct (info_type (JObj ikv)) as [[it off]|e] eqn:Ei.
  2:{ unfold info_type, items in Ei. discriminate. }
  destruct (yahoo_info_table s (Some (JObj ikv)) it off Hn Ei) as [_ [_ Hsym]].
  cbv zeta in Hsym. rewrite Hv in Hsym.
  set (it1 := match assoc "symbol" it with Some _ => it | None => dict_set "symbol" (JStr s) it end) in *.
  assert (Hf : exists recs,
             (match fin with
              | None => Ok ([], it1)
              | Some raw =>
                  match financial_symbol raw, financial_type raw with
                  | Ok sym0, Ok recs =>
                      Ok (recs, match assoc "symbol" it1 with
                                | None => if truthy sym0 then dict_set "symbol" sym0 it1 else it1
                                | Some _ => it1 end)
                  | Err e, _ | _, Err e => Err e
                  end
              end) = Ok (recs, it1)).
  { destruct fin as [raw|]; [|now exists []].
    destruct Hfin as [[x Hx] [recs Hr]]. rewrite Hx, Hr, Hsym. now exists recs. }
  destruct Hf as [recs Hf]. rewrite Hf, Hsym. unfold generate_hash_id. cbn [str_args].
  destruct v; try contradiction; reflexivity.
Qed.


Lemma upsert_csv_missing_key_witness :
  upsert_csv iso_date ex_batch "t.csv" [lit "nokey"] ex_store = (Err KeyError, ex_store)
  \/ upsert_csv iso_date ex_batch "t.csv" [lit "nokey"] ex_store = (Err DateParseError, ex_store)
  \/ upsert_csv iso_date ex_batch "t.csv" [lit "nokey"] ex_store = (Err EmptyDataError, ex_store).
Proof.
  apply (upsert_csv_missing_key iso_date ex_batch "t.csv" [lit "nokey"] ex_store ex_store_file (lit "nokey")).
  - reflexivity.
  - left. reflexivity.
  - intros Hin. apply memb_In in Hin. vm_compute in Hin. discriminate Hin.
  - intros Hin. apply memb_In in Hin. vm_compute in Hin. discriminate Hin.
  - left. discriminate.
Defined.

Lemma transform_non_string_identity_witness :
  transform_stock decimal_float iso_date ex_stock_no_symbol empty_world = (Err TypeError, empty_world).
Proof.
  apply (proj1 (transform_non_string_identity decimal_float iso_date ex_stock_no_symbol empty_world)
           [(lit "3. Last Refreshed", JStr "2024-01-31")] (JObj [])).
  - reflexivity.
  - reflexivity.
  - discriminate.
  - vm_compute. exact I.
Defined.

Lemma crypto_frames_keeps_every_entry_witness :
  length (rows (snd (result_default (frame [], frame [])
                       (fst (crypto_frames decimal_float iso_date ex_crypto_bad_values empty_world)))))
  = length [(lit "2024-01-31", JObj [(lit "1. open", JStr "abc")])].
Proof.
  apply (crypto_frames_keeps_every_entry decimal_float iso_date ex_crypto_bad_values
           [(lit "2024-01-31", JObj [(lit "1. open", JStr "abc")])] empty_world
           _ (snd (crypto_frames decimal_float iso_date ex_crypto_bad_values empty_world))).
  - reflexivity.
  - vm_compute. reflexivity.
Defined.

Lemma transform_folder_unknown_witness :
  keeps_files (transform_folder decimal_float iso_date "misc" ex_folder_files)
  /\ forall w,
       (forall n c, In (n, c) ex_folder_files -> ends_with ".json" n = true -> exists j, c = Ok j) ->
       transform_folder decimal_float iso_date "misc" ex_folder_files w
       = (Ok tt, World (files w)
                   (log w ++ map (fun n => LogWarn ("Unknown folder: " ++ "misc" ++ ", skipping file: " ++ n))
                                 (filter (ends_with ".json") (map fst ex_folder_files)))).
Proof.
  apply transform_folder_unknown.
  intros H. repeat (destruct H as [H|H]; [discriminate H|]). exact H.
Defined.

Lemma info_type_split_witness :
  fst (result_default ([], JNull) (info_type ex_yahoo_info))
  = filter (fun kv => negb (memb (fst kv) info_excluded))
      [(lit "symbol", JStr "IBM"); (lit "longName", JStr "IBM Corp");
       (lit "companyOfficers", JArr [JObj [(lit "name", JStr "A. Person")]]);
       (lit "sector_top_companies", JArr [])]
  /\ snd (result_default ([], JNull) (info_type ex_yahoo_info))
     = match assoc "companyOfficers"
               [(lit "symbol", JStr "IBM"); (lit "longName", JStr "IBM Corp");
                (lit "companyOfficers", JArr [JObj [(lit "name", JStr "A. Person")]]);
                (lit "sector_top_companies", JArr [])] with Some v => v | None => JObj [] end.
Proof.
  apply info_type_split.
  - vm_compute. repeat constructor; intros Hin; repeat (destruct Hin as [Hin|Hin]; [discriminate Hin|]); exact Hin.
  - vm_compute. reflexivity.
Defined.

Lemma financial_type_records_witness :
  Forall2 (fun p r => exists items, snd p = JObj items
             /\ (NoDup (map fst items) ->
                 get_cell "date" r = match assoc "date" items with
                                     | Some d => cell_of_json d
                                     | None => CStr (fst p)
                                     end))
          (filter (fun p => negb (pystr_eqb (fst p) "symbol"))
             [(lit "symbol", JStr "IBM"); (lit "2024-12-31", JObj [(lit "TotalRevenue", JNum 1)])])
          (result_default [] (financial_type ex_yahoo_fin)).
Proof.
  apply (proj2 (financial_type_records
                  [(lit "symbol", JStr "IBM"); (lit "2024-12-31", JObj [(lit "TotalRevenue", JNum 1)])])).
  vm_compute. reflexivity.
Defined.


Lemma yahoo_symbol_non_string_symbol_witness :
  yahoo_symbol "IBM" (Some (JObj ex_yahoo_info_num_symbol)) (Some ex_yahoo_fin) = Err TypeError.
Proof.
  apply (yahoo_symbol_non_string_symbol "IBM" ex_yahoo_info_num_symbol (JNum 7)).
  - vm_compute. constructor; [intros []|constructor].
  - reflexivity.
  - exact I.
  - split; eexists; reflexivity.
Defined.

(** What [_upsert_csv] changes: its own file, nothing else. *)
Lemma upsert_csv_effects pd df path subset w r w' :
  upsert_csv pd df path subset w = (r, w') ->
  log w' = log w
  /\ (forall p, p <> path -> file_lookup p (files w') = file_lookup p (files w)).
Proof.
  intros H. apply upsert_csv_cases in H as [[e [_ [_ ->]]]|[[t [_ [_ ->]]]|[t [_ [_ ->]]]]];
    cbn [files log]; (split; [reflexivity|]); intros p Hp; [reflexivity| |];
    apply file_lookup_set_other; exact Hp.
Qed.

Lemma bind_inv {A B} (m : M A) (k : A -> M B) w r w' :
  bind m k w = (r, w') ->
  (exists e, m w = (Err e, w') /\ r = Err e) \/ (exists a w1, m w = (Ok a, w1) /\ k a w1 = (r, w')).
Proof.
  unfold bind. destruct (m w) as [[a|e] w1]; intros H.
  - right. exists a, w1. split; [reflexivity|exact H].
  - left. inversion H; subst. now exists e.
Qed.

(** The effect of one of the first two writes: no log, at most its own file. *)
Lemma yahoo_part_effect pd df path subset (rs : list row) w r w' :
  (match rs with [] => ret tt | _ => upsert_csv pd df path subset end) w = (r, w') ->
  log w' = log w /\ (forall p, p <> path -> file_lookup p (files w') = file_lookup p (files w)).
Proof.
  destruct rs; intros H.
  - unfold ret in H. inversion H; subst. split; reflexivity.
  - apply upsert_csv_effects in H. tauto.
Qed.

(** [Transform.transform_yahoo_financials] writes no file but [information.csv], [company_officers.csv] and [financials.csv] of its output folder, and its only possible warning is either the one for an empty directory or the one counting the financial records dropped for missing values. *)
Theorem transform_yahoo_financials_effects pd sn so dg sp entries w r w' :
  transform_yahoo_financials pd sn so dg sp entries w = (r, w') ->
  (forall p, ~ In p yahoo_paths -> file_lookup p (files w') = file_lookup p (files w))
  /\ (log w' = log w
      \/ (entries = [] /\ log w' = log w ++ [LogWarn "No Yahoo Finance files found."])
      \/ (exists n, (0 < n)%nat
           /\ log w' = log w ++ [LogWarn ("Removed " ++ str_of_nat n
                                          ++ " financial records due to excessive missing values")])).
Proof.
  intros H. unfold transform_yahoo_financials in H. destruct entries as [|e0 es].
  { unfold warn in H. inversion H; subst. cbn [files log]. split; [reflexivity|].
    right; left. split; reflexivity. }
  apply bind_inv in H. destruct H as [[e [He _]]|[[[i o] f] [w1 [He H]]]];
    unfold lift in He; inversion He; subst.
  { split; [reflexivity|left; reflexivity]. }
  unfold yahoo_save in H.
  apply bind_inv in H. destruct H as [[e [Ha1 _]]|[[] [w2 [Ha1 H]]]].
  { apply yahoo_part_effect in Ha1. destruct Ha1 as [Hl Hf].
    split; [|left; exact Hl]. intros p Hp. apply Hf. intros ->. apply Hp. left. reflexivity. }
  apply yahoo_part_effect in Ha1. destruct Ha1 as [Hl1 Hf1].
  apply bind_inv in H. destruct H as [[e [Ha2 _]]|[[] [w3 [Ha2 H]]]].
  { apply yahoo_part_effect in Ha2. destruct Ha2 as [Hl Hf].
    split; [|left; congruence]. intros p Hp. rewrite Hf, Hf1; [reflexivity| |];
      intros ->; apply Hp; cbn; tauto. }
  apply yahoo_part_effect in Ha2. destruct Ha2 as [Hl2 Hf2].
  assert (Hw : forall p, ~ In p yahoo_paths -> file_lookup p (files w3) = file_lookup p (files w1)).
  { intros p Hp. rewrite Hf2, Hf1; [reflexivity| |]; intros ->; apply Hp; cbn; tauto. }
  destruct f as [|fr frs].
  { unfold ret in H. inversion H; subst. split; [exact Hw|left; congruence]. }
  apply bind_inv in H. destruct H as [[e [Ha3 _]]|[t [w4 [Ha3 H]]]];
    unfold lift in Ha3; inversion Ha3; subst.
  { split; [exact Hw|left; congruence]. }
  cbv zeta in H. apply bind_inv in H. destruct H as [[e [Ha4 _]]|[[] [w5 [Ha4 H]]]].
  { destruct (0 <? _)%nat in Ha4; [unfold warn in Ha4|unfold ret in Ha4]; discriminate. }
  apply upsert_csv_effects in H. destruct H as [Hl5 Hf5].
  split.
  - intros p Hp. rewrite Hf5 by (intros ->; apply Hp; cbn; tauto).
    destruct (0 <? _)%nat in Ha4; [unfold warn in Ha4|unfold ret in Ha4]; inversion Ha4; subst;
      cbn [files]; apply Hw; exact Hp.
  - destruct (0 <? _)%nat eqn:Ez in Ha4; [unfold warn in Ha4|unfold ret in Ha4]; inversion Ha4; subst.
    + right; right. eexists. split; [apply Nat.ltb_lt; exact Ez|]. cbn [log] in Hl5. rewrite Hl5. congruence.
    + left. cbn [log] in Hl5. congruence.
Qed.

Lemma yahoo_rows_err entries e0 err0 :
  In e0 entries -> yahoo_load e0 = Err err0 -> exists err, yahoo_rows entries = Err err.
Proof.
  induction entries as [|e es IH]; intros Hin He; [destruct Hin|].
  cbn [yahoo_rows]. destruct Hin as [->|Hin].
  - rewrite He. eauto.
  - destruct (yahoo_load e) as [[[i o] f]|err]; [|eauto].
    destruct (IH Hin He) as [err Herr]. rewrite Herr. eauto.
Qed.

(** When the file of one symbol cannot be loaded or parsed, [Transform.transform_yahoo_financials] raises before writing anything: the store and the log are left as they were. *)
Theorem transform_yahoo_financials_all_or_nothing pd sn so dg sp entries e0 err0 w :
  In e0 entries -> yahoo_load e0 = Err err0 ->
  exists err, transform_yahoo_financials pd sn so dg sp entries w = (Err err, w).
Proof.
  intros Hin He. destruct (yahoo_rows_err entries e0 err0 Hin He) as [err Herr].
  exists err. unfold transform_yahoo_financials.
  destruct entries as [|e es]; [destruct Hin|].
  unfold bind, lift. rewrite Herr. reflexivity.
Qed.

Lemma dict_set_nonempty {A} k (v : A) d : dict_set k v d <> [].
Proof. destruct d as [|[k' v'] d]; cbn; [discriminate|]. destruct (pystr_eqb k k'); discriminate. Qed.

Lemma yahoo_symbol_one_info_row s info fin irs ors frs :
  yahoo_symbol s info fin = Ok (irs, ors, frs) -> length irs = 1%nat.
Proof.
  unfold yahoo_symbol. intros H.
  destruct (match info with Some raw => info_type raw | None => Ok ([], JArr []) end)
    as [[it off]|e]; [|discriminate].
  set (it1 := match assoc "symbol" it with Some _ => it | None => dict_set "symbol" (JStr s) it end) in *.
  assert (Hne : it1 <> []).
  { subst it1. destruct (assoc "symbol" it) eqn:E; [|apply dict_set_nonempty].
    intros ->. discriminate. }
  destruct (match fin with
            | None => Ok ([], it1)
            | Some raw =>
                match financial_symbol raw, financial_type raw with
                | Ok sym0, Ok recs =>
                    Ok (recs, match assoc "symbol" it1 with
                              | None => if truthy sym0 then dict_set "symbol" sym0 it1 else it1
                              | Some _ => it1 end)
                | Err e, _ | _, Err e => Err e
                end
            end) as [[recs it2]|e] eqn:Ef; [|discriminate].
  assert (Hne2 : it2 <> []).
  { destruct fin as [raw|]; [|inversion Ef; subst; exact Hne].
    destruct (financial_symbol raw), (financial_type raw); try discriminate.
    inversion Ef; subst. destruct (assoc "symbol" it1); [exact Hne|].
    destruct (truthy _); [apply dict_set_nonempty|exact Hne]. }
  destruct (generate_hash_id _ _ _); [|discriminate].
  destruct (iter_json off); [|discriminate].
  destruct (officer_rows _ _ _); [|discriminate].
  inversion H; subst. destruct it2; [congruence|reflexivity].
Qed.

Lemma yahoo_load_one_info_row e i o f :
  yahoo_load e = Ok (i, o, f) -> length i = 1%nat.
Proof.
  destruct e as [[s inf] fi]. unfold yahoo_load. intros H.
  destruct inf as [[j|err]|]; [| discriminate |];
    destruct fi as [[j'|err']|]; try (eapply yahoo_symbol_one_info_row; exact H).
  - destruct (info_type j); discriminate.
  - discriminate.
Qed.

(** The loop of [Transform.transform_yahoo_financials] collects exactly one information row per symbol. *)
Theorem yahoo_rows_one_info_row_per_symbol entries i o f :
  yahoo_rows entries = Ok (i, o, f) -> length i = length entries.
Proof.
  revert i o f. induction entries as [|e es IH]; intros i o f H; cbn [yahoo_rows] in H.
  - now inversion H.
  - destruct (yahoo_load e) as [[[i1 o1] f1]|err] eqn:E; [|discriminate].
    destruct (yahoo_rows es) as [[[i2 o2] f2]|err]; [|discriminate].
    inversion H; subst. rewrite length_app, (yahoo_load_one_info_row _ _ _ _ E).
    cbn. f_equal. eapply IH; reflexivity.
Qed.

Lemma assoc_filter_key {A} k col (r : list (pystr * A)) :
  assoc k (filter (fun kv => negb (pystr_eqb (fst kv) col)) r)
  = if pystr_eqb k col then None else assoc k r.
Proof.
  induction r as [|[k' v'] r IH]; cbn [filter assoc fst].
  - destruct (pystr_eqb k col); reflexivity.
  - destruct (pystr_eqb k' col) eqn:E1; cbn [negb assoc].
    + rewrite IH. apply pystr_eqb_eq in E1; subst.
      destruct (pystr_eqb k col); reflexivity.
    + rewrite IH. destruct (pystr_eqb k k') eqn:E2; [|reflexivity].
      apply pystr_eqb_eq in E2; subst. rewrite E1. reflexivity.
Qed.

Lemma Forall2_map_self {A B} (P : A -> B -> Prop) (g : A -> B) l :
  (forall x, In x l -> P x (g x)) -> Forall2 P l (map g l).
Proof.
  induction l as [|x l IH]; intros H; constructor.
  - apply H. left. reflexivity.
  - apply IH. intros y Hy. apply H. right. exact Hy.
Qed.

Lemma strip_non_digits_ok dg sp s :
  Forall (fun c => dg c = true /\ sp c = false) (cps (strip_non_digits dg sp s)).
Proof.
  unfold strip_non_digits. cbn [cps]. apply Forall_forall. intros c Hc.
  apply filter_In in Hc. destruct Hc as [Hc Hs]. apply filter_In in Hc.
  split; [tauto|]. destruct (sp c); [discriminate|reflexivity].
Qed.

(** The cleaning of [info_df] in [Transform.transform_yahoo_financials] removes the column [ipoExpectedDate], leaves every other column and every row, turns each non-missing cell of a present [zip] or [phone] column into a string of digits only, and changes no cell of another column. *)
Theorem clean_info_cells sn so dg sp rs :
  columns (clean_info sn so dg sp rs)
  = filter (fun c => negb (pystr_eqb c "ipoExpectedDate")) (columns (frame rs))
  /\ Forall2 (fun r r' =>
        get_cell "ipoExpectedDate" r' = CNull
        /\ (forall k, ~ In k [lit "zip"; lit "phone"; lit "ipoExpectedDate"] -> get_cell k r' = get_cell k r)
        /\ (forall col, In col [lit "zip"; lit "phone"] -> In col (columns (frame rs)) ->
              get_cell col r <> CNull ->
              exists s, get_cell col r' = CStr s /\ Forall (fun c => dg c = true /\ sp c = false) (cps s)))
      rs (rows (clean_info sn so dg sp rs)).
Proof.
  set (cols := columns (frame rs)).
  assert (Hfr : frame rs = Table cols rs) by reflexivity.
  unfold clean_info, fold_left. rewrite Hfr.
  set (cz := fun r : row => dict_set "zip" (CStr (strip_non_digits dg sp (py_str_cell sn so (get_cell "zip" r)))) r).
  set (cp := fun r : row => dict_set "phone" (CStr (strip_non_digits dg sp (py_str_cell sn so (get_cell "phone" r)))) r).
  assert (Hrows : rows (clean_digits_col sn so dg sp "phone" (clean_digits_col sn so dg sp "zip" (Table cols rs)))
                  = map (fun r => if memb "phone" cols then cp (if memb "zip" cols then cz r else r)
                                  else if memb "zip" cols then cz r else r) rs
                  /\ columns (clean_digits_col sn so dg sp "phone" (clean_digits_col sn so dg sp "zip" (Table cols rs)))
                     = cols).
  { unfold clean_digits_col. cbn [columns rows].
    destruct (memb "zip" cols); cbn [columns rows];
      destruct (memb "phone" cols); cbn [columns rows];
      rewrite ?map_map; (split; [|reflexivity]); try reflexivity.
    symmetry. apply map_id. }
  destruct Hrows as [Hr Hc]. unfold drop_col. cbn [columns rows]. rewrite Hr, Hc, map_map.
  split; [reflexivity|]. apply Forall2_map_self. intros r _. unfold get_cell.
  rewrite !assoc_filter_key. split; [reflexivity|]. split.
  - intros k Hk. destruct (pystr_eqb k "ipoExpectedDate") eqn:Ei.
    { apply pystr_eqb_eq in Ei; subst. exfalso; apply Hk; cbn; tauto. }
    assert (Hz : k <> lit "zip") by (intros ->; apply Hk; cbn; tauto).
    assert (Hp : k <> lit "phone") by (intros ->; apply Hk; cbn; tauto).
    rewrite assoc_filter_key, Ei.
    destruct (memb "phone" cols), (memb "zip" cols); unfold cp, cz; cbv beta;
      rewrite ?assoc_dict_set_other by congruence; reflexivity.
  - intros col Hcol Hin _. apply memb_In in Hin.
    destruct (pystr_eqb col "ipoExpectedDate") eqn:Ei.
    { apply pystr_eqb_eq in Ei; subst. destruct Hcol as [H|[H|[]]]; discriminate H. }
    rewrite assoc_filter_key, Ei.
    destruct Hcol as [<-|[<-|[]]].
    + rewrite Hin. destruct (memb "phone" cols); unfold cp, cz; cbv beta;
        rewrite ?assoc_dict_set_other by discriminate; rewrite assoc_dict_set;
        (eexists; split; [reflexivity|apply strip_non_digits_ok]).
    + rewrite Hin. unfold cp. cbv beta. rewrite assoc_dict_set.
      eexists; split; [reflexivity|apply strip_non_digits_ok].
Qed.

Lemma transform_yahoo_financials_effects_witness :
  let run := transform_yahoo_financials iso_date (fun _ => PyStr []) (fun _ => PyStr []) ascii_digit ascii_space
               ex_yahoo_entries empty_world in
  (forall p, ~ In p yahoo_paths -> file_lookup p (files (snd run)) = file_lookup p (files empty_world))
  /\ (log (snd run) = log empty_world
      \/ (ex_yahoo_entries = [] /\ log (snd run) = log empty_world ++ [LogWarn "No Yahoo Finance files found."])
      \/ (exists n, (0 < n)%nat
           /\ log (snd run) = log empty_world ++ [LogWarn ("Removed " ++ str_of_nat n
                                          ++ " financial records due to excessive missing values")])).
Proof.
  cbv zeta.
  apply (transform_yahoo_financials_effects iso_date (fun _ => PyStr []) (fun _ => PyStr []) ascii_digit ascii_space
           ex_yahoo_entries empty_world
           (fst (transform_yahoo_financials iso_date (fun _ => PyStr []) (fun _ => PyStr []) ascii_digit ascii_space
                   ex_yahoo_entries empty_world))).
  vm_compute. reflexivity.
Defined.

Lemma transform_yahoo_financials_all_or_nothing_witness :
  exists err, transform_yahoo_financials iso_date (fun _ => PyStr []) (fun _ => PyStr []) ascii_digit ascii_space
                ex_yahoo_entries_bad ex_store = (Err err, ex_store).
Proof.
  apply (transform_yahoo_financials_all_or_nothing iso_date (fun _ => PyStr []) (fun _ => PyStr []) ascii_digit ascii_space
           ex_yahoo_entries_bad (lit "MSFT", Some (Err (ValueError "Expecting value")), None)
           (ValueError "Expecting value")).
  - right. left. reflexivity.
  - reflexivity.
Defined.

Lemma yahoo_rows_one_info_row_per_symbol_witness :
  length (fst (fst (result_default ([], [], []) (yahoo_rows ex_yahoo_entries)))) = length ex_yahoo_entries.
Proof.
  apply (yahoo_rows_one_info_row_per_symbol ex_yahoo_entries _
           (snd (fst (result_default ([], [], []) (yahoo_rows ex_yahoo_entries))))
           (snd (result_default ([], [], []) (yahoo_rows ex_yahoo_entries)))).
  vm_compute. reflexivity.
Defined.

Lemma load_files_ok contents js : load_files contents = Ok js -> contents = map (@Ok json) js.
Proof.
  revert js. induction contents as [|[j|e] rest IH]; intros js H; cbn [load_files] in H.
  - now inversion H.
  - destruct (load_files rest) as [js'|e] eqn:E; [|discriminate].
    inversion H; subst. cbn [map]. f_equal. now apply IH.
  - discriminate.
Qed.

Lemma load_folders_ok entries files out :
  NoDup (map fst entries) ->
  (forall n, In n (map fst entries) -> ~ In n (map fst files)) ->
  load_folders entries files = Ok out ->
  exists loaded, Forall2 (fun e l => fst e = fst l /\ snd e = Ok (map (@Ok json) (snd l))) entries loaded
                 /\ out = files ++ loaded.
Proof.
  revert files. induction entries as [|[n ls] rest IH]; intros files Hnd Hdis H; cbn [load_folders] in H.
  - inversion H; subst. exists []. split; [constructor|now rewrite app_nil_r].
  - destruct ls as [contents|e]; [|discriminate].
    destruct (load_files contents) as [js|e] eqn:El; [|discriminate].
    inversion Hnd as [|? ? Hn Hnd']; subst.
    rewrite dict_set_notin in H by (apply Hdis; left; reflexivity).
    destruct (IH (files ++ [(n, js)]) Hnd') as [loaded [Hf Ho]]; [| exact H |].
    + intros n' Hn' Hin. rewrite map_app in Hin. apply in_app_or in Hin. destruct Hin as [Hin|[Heq|[]]].
      * apply (Hdis n'); [right; exact Hn'|exact Hin].
      * cbn in Heq. subst. contradiction.
    + exists ((n, js) :: loaded). split.
      * constructor; [split; [reflexivity|] | exact Hf]. cbn [snd]. f_equal. now apply load_files_ok.
      * rewrite Ho, <- app_assoc. reflexivity.
Qed.

Lemma find_app {A} (f : A -> bool) l1 l2 :
  find f (l1 ++ l2) = match find f l1 with Some x => Some x | None => find f l2 end.
Proof. induction l1 as [|x l1 IH]; cbn; [reflexivity|]. destruct (f x); [reflexivity|exact IH]. Qed.

Lemma fold_dict_set_assoc {A} (g : pystr -> pystr) (l : list (pystr * A)) acc k :
  assoc k (fold_left (fun acc kv => dict_set (g (fst kv)) (snd kv) acc) l acc)
  = match find (fun kv => pystr_eqb (g (fst kv)) k) (rev l) with
    | Some kv => Some (snd kv)
    | None => assoc k acc
    end.
Proof.
  revert acc. induction l as [|[n v] l IH]; intros acc; cbn [fold_left rev]; [reflexivity|].
  rewrite IH, find_app. cbn [find fst snd].
  destruct (find _ (rev l)); [reflexivity|].
  destruct (pystr_eqb (g n) k) eqn:E.
  - apply pystr_eqb_eq in E. subst. apply assoc_dict_set.
  - apply assoc_dict_set_other. intros Heq. subst. rewrite (proj2 (pystr_eqb_eq _ _) eq_refl) in E. discriminate.
Qed.

Lemma dict_set_keys {A} k (v : A) d : In k (map fst d) -> map fst (dict_set k v d) = map fst d.
Proof.
  induction d as [|[k' v'] d IH]; cbn [map fst dict_set]; intros H; [destruct H|].
  destruct (pystr_eqb k k') eqn:E; cbn [map fst]; [reflexivity|].
  f_equal. apply IH. destruct H as [<-|H]; [|exact H].
  rewrite (proj2 (pystr_eqb_eq _ _) eq_refl) in E. discriminate.
Qed.

Lemma dict_set_nodup {A} k (v : A) d : NoDup (map fst d) -> NoDup (map fst (dict_set k v d)).
Proof.
  intros H. destruct (in_dec pystr_eq_dec k (map fst d)) as [Hin|Hin].
  - now rewrite dict_set_keys.
  - rewrite dict_set_notin by exact Hin. rewrite map_app. apply NoDup_app; [exact H|repeat constructor; tauto|].
    intros x Hx [<-|[]]. contradiction.
Qed.

Lemma fold_dict_set_nodup {A} (g : pystr -> pystr) (l : list (pystr * A)) acc :
  NoDup (map fst acc) -> NoDup (map fst (fold_left (fun acc kv => dict_set (g (fst kv)) (snd kv) acc) l acc)).
Proof.
  revert acc. induction l as [|kv l IH]; intros acc H; cbn [fold_left]; [exact H|].
  apply IH. now apply dict_set_nodup.
Qed.

(** On a listing without repeated folder names, a successful [Transform.load_raw_data] loads every file of every folder in order, and returns a dict whose keys are the folder names with each [.json] removed; when several folders get the same key, the last of them in listing order gives its files. *)
Theorem load_raw_data_last_wins entries d :
  NoDup (map fst entries) ->
  load_raw_data entries = Ok d ->
  exists loaded,
    Forall2 (fun e l => fst e = fst l /\ snd e = Ok (map (@Ok json) (snd l))) entries loaded
    /\ NoDup (map fst d)
    /\ forall k, assoc k d = match find (fun l => pystr_eqb (py_remove ".json" (fst l)) k) (rev loaded) with
                             | Some l => Some (snd l)
                             | None => None
                             end.
Proof.
  intros Hnd H. unfold load_raw_data in H.
  destruct (load_folders entries []) as [files|e] eqn:Ef; [|discriminate].
  apply load_folders_ok in Ef; [|exact Hnd|intros n _ []].
  destruct Ef as [loaded [Hf ->]]. inversion H; subst. exists loaded.
  split; [exact Hf|]. split.
  - apply fold_dict_set_nodup. constructor.
  - intros k. rewrite fold_dict_set_assoc. reflexivity.
Qed.

Lemma load_files_err contents e : In (Err e) contents -> exists e', load_files contents = Err e'.
Proof.
  induction contents as [|[j|e0] rest IH]; intros H; [destruct H| |]; cbn [load_files].
  - destruct H as [H|H]; [discriminate|]. destruct (IH H) as [e' ->]. eauto.
  - eauto.
Qed.

(** [Transform.load_raw_data] skips nothing: a folder it cannot list, or a single file that does not load, makes the whole call raise. *)
Theorem load_raw_data_any_failure entries n ls :
  In (n, ls) entries ->
  (match ls with Err _ => True | Ok contents => exists e, In (Err e) contents end) ->
  exists e, load_raw_data entries = Err e.
Proof.
  intros Hin Hbad. unfold load_raw_data.
  enough (exists e, forall files, load_folders entries files = Err e) as [e He] by (exists e; now rewrite He).
  induction entries as [|[n' ls'] rest IH]; [destruct Hin|].
  destruct Hin as [Heq|Hin].
  - inversion Heq; subst. destruct ls as [contents|e]; cbn [load_folders].
    + destruct Hbad as [e Hb]. destruct (load_files_err contents e Hb) as [e' He']. exists e'. intros files. now rewrite He'.
    + exists e. reflexivity.
  - destruct (IH Hin) as [e He]. cbn [load_folders].
    destruct ls' as [contents|e']; [|exists e'; reflexivity].
    destruct (load_files contents) as [js|e'] eqn:El; [|exists e'; reflexivity].
    exists e. intros files. apply He.
Qed.

Lemma load_raw_data_last_wins_witness :
  exists loaded,
    Forall2 (fun e l => fst e = fst l /\ snd e = Ok (map (@Ok json) (snd l))) ex_raw_listing loaded
    /\ NoDup (map fst (result_default [] (load_raw_data ex_raw_listing)))
    /\ forall k, assoc k (result_default [] (load_raw_data ex_raw_listing))
                 = match find (fun l => pystr_eqb (py_remove ".json" (fst l)) k) (rev loaded) with
                   | Some l => Some (snd l)
                   | None => None
                   end.
Proof.
  apply load_raw_data_last_wins.
  - vm_compute. repeat constructor; intros Hin; repeat (destruct Hin as [Hin|Hin]; [discriminate Hin|]); exact Hin.
  - vm_compute. reflexivity.
Defined.

Lemma load_raw_data_any_failure_witness : exists e, load_raw_data ex_raw_listing_bad = Err e.
Proof.
  apply (load_raw_data_any_failure ex_raw_listing_bad (lit "forex")
           (Ok [Err (ValueError "Expecting value"); Ok JNull])).
  - right. left. reflexivity.
  - exists (ValueError "Expecting value"). left. reflexivity.
Defined.
